(** * LDC1101_KASM: the LDC1101 register protocol and sampling loop

    A shallow embedding of [src/ldc1101.h] and [src/main.c]: the register
    map, the two register-access functions, the initialisation sequence, the
    busy-poll and sample loop of [main], and [get_elapsed_time]; then the
    option loop, [send_command] and [main] from its first line to its last.

    Integers are [Z]; a [uint8_t] is a [Z] reduced modulo 256 where the C
    code converts, a [long] is a [Z] wrapped to the platform's width.  The
    SPI transport, the clock and the log file are the platform's: they are
    the fields of a [platform] record, so every theorem holds for every
    behaviour of the bus.  Each function returns its result, the platform's
    next state and the events it produced, oldest first. *)

From Stdlib Require Import ZArith List Lia Bool.
From Stdlib Require Strings.String.
Import ListNotations.
Local Open Scope Z_scope.

(** ** ldc1101.h: register addresses and bit masks *)

Definition LDC1101_RP_SET          : Z := 0x01.
Definition LDC1101_TC1             : Z := 0x02.
Definition LDC1101_TC2             : Z := 0x03.
Definition LDC1101_DIG_CONFIG      : Z := 0x04.
Definition LDC1101_ALT_CONFIG      : Z := 0x05.
Definition LDC1101_RP_THRESH_H_LSB : Z := 0x06.
Definition LDC1101_RP_THRESH_H_MSB : Z := 0x07.
Definition LDC1101_RP_THRESH_L_LSB : Z := 0x08.
Definition LDC1101_RP_THRESH_L_MSB : Z := 0x09.
Definition LDC1101_INTB_MODE       : Z := 0x0A.
Definition LDC1101_START_CONFIG    : Z := 0x0B.
Definition LDC1101_D_CONF          : Z := 0x0C.
Definition LDC1101_L_THRESH_HI_LSB : Z := 0x16.
Definition LDC1101_L_THRESH_HI_MSB : Z := 0x17.
Definition LDC1101_L_THRESH_LO_LSB : Z := 0x18.
Definition LDC1101_L_THRESH_LO_MSB : Z := 0x19.
Definition LDC1101_STATUS          : Z := 0x20.
Definition LDC1101_RP_DATA_LSB     : Z := 0x21.
Definition LDC1101_RP_DATA_MSB     : Z := 0x22.
Definition LDC1101_L_DATA_LSB      : Z := 0x23.
Definition LDC1101_L_DATA_MSB      : Z := 0x24.
Definition LDC1101_LHR_RCOUNT_LSB  : Z := 0x30.
Definition LDC1101_LHR_RCOUNT_MSB  : Z := 0x31.
Definition LDC1101_LHR_OFFSET_LSB  : Z := 0x32.
Definition LDC1101_LHR_OFFSET_MSB  : Z := 0x33.
Definition LDC1101_LHR_CONFIG      : Z := 0x34.
Definition LDC1101_LHR_DATA_LSB    : Z := 0x38.
Definition LDC1101_LHR_DATA_MID    : Z := 0x39.
Definition LDC1101_LHR_DATA_MSB    : Z := 0x3A.
Definition LDC1101_LHR_STATUS      : Z := 0x3B.
Definition LDC1101_RID             : Z := 0x3E.
Definition LDC1101_CHIP_ID         : Z := 0x3F.

(** LHR status register bits; the macros are unparenthesised shifts. *)
Definition LDC1101_ERR_ZC   : Z := Z.shiftl 1 4.
Definition LDC1101_ERR_OR   : Z := Z.shiftl 1 3.
Definition LDC1101_ERR_UR   : Z := Z.shiftl 1 2.
Definition LDC1101_ERR_OF   : Z := Z.shiftl 1 1.
Definition LDC1101_LHR_DRDY : Z := Z.shiftl 1 0.

(** ** main.c: constants *)

Definition SPI_SPEED  : Z := 1000000.
Definition SPI_MODE_0 : Z := 0.
Definition SPI_MODE_3 : Z := 3.
(** [#define HIGH_Q_SENSOR 0 << 7]: the selector bit [sel], shifted to bit 7.
    The source fixes [sel = 0]. *)
Definition HIGH_Q (sel : Z) : Z := Z.shiftl sel 7.
Definition HIGH_Q_SENSOR : Z := HIGH_Q 0.
Definition LOPTIMAL   : Z := 0x01.
Definition DOK_REPORT : Z := 0x01.
Definition SPI_DEV_ID : Z := 0xD4.
Definition EXIT_FAILURE : Z := 1.
Definition spi_num  : Z := 0.
Definition spi_chan : Z := 0.

(** ** Machine integers *)

(** Conversion to [uint8_t] and [uint32_t]. *)
Definition u8  (x : Z) : Z := x mod 2 ^ 8.
Definition u32 (x : Z) : Z := x mod 2 ^ 32.

(** A signed integer of [w] bits: the value wraps around. *)
Definition wrap (w : Z) (x : Z) : Z :=
  (x + 2 ^ (w - 1)) mod 2 ^ w - 2 ^ (w - 1).

Definition in_long (w : Z) (x : Z) : Prop :=
  - 2 ^ (w - 1) <= x < 2 ^ (w - 1).

(** ** struct timespec and get_elapsed_time *)

Record timespec : Type := mk_timespec { tv_sec : Z; tv_nsec : Z }.

(** Nanoseconds a [timespec] stands for. *)
Definition ns_of (t : timespec) : Z := tv_sec t * 1000000000 + tv_nsec t.

Section ElapsedTime.
(** Width of [long] and [time_t] (the source prints both with [%ld]). *)
Variable w : Z.

Definition get_elapsed_time (start end_ : timespec) : timespec :=
  if wrap w (tv_nsec end_ - tv_nsec start) <? 0 then
    {| tv_sec  := wrap w (wrap w (tv_sec end_ - tv_sec start) - 1);
       tv_nsec := wrap w (wrap w (1000000000 + tv_nsec end_) - tv_nsec start) |}
  else
    {| tv_sec  := wrap w (tv_sec end_ - tv_sec start);
       tv_nsec := wrap w (tv_nsec end_ - tv_nsec start) |}.
End ElapsedTime.

(** ** Arrays of bytes *)

(** [data[i] = v] on an array held as a list; the array keeps its size. *)
Fixpoint store (data : list Z) (i : nat) (v : Z) : list Z :=
  match data, i with
  | [], _ => []
  | _ :: tl, O => v :: tl
  | hd :: tl, S j => hd :: store tl j v
  end.

(** [data[i]] read from an array of the right size. *)
Definition load (data : list Z) (i : nat) : Z := nth i data 0.

(** Indexing that checks the bound: [None] outside the array. *)
Definition checked_load (data : list Z) (i : nat) : option Z := nth_error data i.

(** The [len] bytes [data[0] .. data[len-1]] a transfer works on, with
    checked indexing: [None] as soon as one index is outside the array. *)
Fixpoint checked_span (data : list Z) (from len : nat) : option (list Z) :=
  match len with
  | O => Some []
  | S len' =>
      match checked_load data from with
      | None => None
      | Some b =>
          match checked_span data (S from) len' with
          | None => None
          | Some bs => Some (b :: bs)
          end
      end
  end.

Definition checked_frame (data : list Z) (len : nat) : option (list Z) :=
  checked_span data 0 len.

(** What the array holds after a transfer that handed back [resp]: the
    bytes of [resp] that fall inside the array, each a [uint8_t]; cells the
    response does not reach keep their value.  Bytes of [resp] past the end
    of the array are dropped: C leaves a write past the end of an array
    undefined, so what they overwrite is not fixed by the source, and the
    variables of [main] beside the arrays ([start_time], the name of the log
    file) are carried through unchanged. *)
Fixpoint receive (data resp : list Z) : list Z :=
  match data, resp with
  | [], _ => []
  | _, [] => data
  | _ :: dtl, r :: rtl => u8 r :: receive dtl rtl
  end.

(** ** RP_SET composition (ldc1101_init, "Set RP") *)

(** [(HIGH_Q_SENSOR | ((rpmax<<4) & rpmax_mask) | (rpmin & rpmin_mask)) & reserved],
    stored in a [uint8_t]; [high_q] is the value of the [HIGH_Q_SENSOR] macro. *)
Definition rp_set (high_q rpmax rpmin : Z) : Z :=
  let rpmin_mask := 0x07 in
  let rpmax_mask := 0x70 in
  let reserved := u8 (Z.lnot 0x08) in
  u8 (Z.land
        (Z.lor (Z.lor high_q (Z.land (Z.shiftl rpmax 4) rpmax_mask))
               (Z.land rpmin rpmin_mask))
        reserved).

(** ** Sample decoding (main, "Combine data bytes into value") *)

(** [value = (data[3] << 16) | (data[2] << 8) | data[1]], a [uint32_t]. *)
Definition decode_value (data : list Z) : Z :=
  u32 (Z.lor (Z.lor (Z.shiftl (load data 3) 16) (Z.shiftl (load data 2) 8))
             (load data 1)).

(** ** The platform and the events of a run *)

Inductive log_msg : Type :=
| LogSpiFd (fd : Z)
| LogSpiSetupFailed
| LogSpiInitialized
| LogWriteFailed (reg : Z)
| LogReadFailed (reg : Z)
| LogIdReadFailed
| LogUnexpectedId (got expected : Z)
| LogIdVerified (id : Z)
| LogValueFailed
| LogFileWriteFailed
| LogCmdLimit (max_cmd : Z)
| LogSendFailed (cmd_val : Z)
| LogComplete.

Inductive event : Type :=
| EvSpiSetup (num chan speed mode fd : Z)
| EvSpiRW (tx : list Z) (len : nat) (ret : Z) (rx : list Z)
| EvSyslog (m : log_msg)
| EvStderr (m : log_msg)
| EvClock (t : timespec)
| EvRow (elapsed : timespec) (value : Z) (ret : Z)
| EvCommand (cmd_val : Z) (ret : Z)
| EvClose.

(** What the program runs on.  [p_transfer d data len] is
    [wiringPiSPIxDataRW] on the array [data] with length argument [len]: it
    gives the [int] it returns and the bytes it handed back.  The byte of a
    transfer that lies past the end of the array is the platform's: the
    model keeps the array and the length apart and does not invent it.
    [p_send] is [send_command], whose body is written against
    [UDP_client.h], which the repository does not contain. *)
Record platform : Type := {
  dev : Type;
  long_bits : Z;
  p_setup : dev -> Z -> Z -> Z -> Z -> dev * Z;
  p_transfer : dev -> list Z -> nat -> dev * (Z * list Z);
  p_clock : dev -> dev * timespec;
  p_write : dev -> timespec -> Z -> dev * Z;
  p_send : dev -> Z -> dev * Z
}.

(** How a function ends: it returns, the process exits ([exit]), or a
    busy-wait is still spinning when the fuel of the model runs out. *)
Inductive result (A : Type) : Type :=
| Done (a : A)
| Exited (status : Z)
| Spinning.
Arguments Done {A} a.
Arguments Exited {A} status.
Arguments Spinning {A}.

Section Driver.
Variable P : platform.

Definition prog (A : Type) : Type := dev P -> result A * dev P * list event.

Definition ret {A} (a : A) : prog A := fun d => (Done a, d, []).

Definition bind {A B} (m : prog A) (k : A -> prog B) : prog B :=
  fun d =>
    match m d with
    | (Done a, d1, e1) =>
        match k a d1 with
        | (r, d2, e2) => (r, d2, e1 ++ e2)
        end
    | (Exited s, d1, e1) => (Exited s, d1, e1)
    | (Spinning, d1, e1) => (Spinning, d1, e1)
    end.

Notation "x <- m ;; k" := (bind m (fun x => k))
  (at level 61, m at next level, right associativity).
Notation "m ;;; k" := (bind m (fun _ => k))
  (at level 61, right associativity).

Definition exit {A} (status : Z) : prog A := fun d => (Exited status, d, []).
Definition spin {A} : prog A := fun d => (Spinning, d, []).
Definition emit (e : event) : prog unit := fun d => (Done tt, d, [e]).
Definition syslog (m : log_msg) : prog unit := emit (EvSyslog m).

Definition wiringPiSPIxSetupMode (num chan speed mode : Z) : prog Z :=
  fun d =>
    let '(d', fd) := p_setup P d num chan speed mode in
    (Done fd, d', [EvSpiSetup num chan speed mode fd]).

(** The transfer works in place: the result carries the array after it. *)
Definition wiringPiSPIxDataRW (data : list Z) (len : nat) : prog (Z * list Z) :=
  fun d =>
    let '(d', (r, resp)) := p_transfer P d data len in
    let rx := receive data resp in
    (Done (r, rx), d', [EvSpiRW data len r rx]).

Definition clock_gettime : prog timespec :=
  fun d => let '(d', t) := p_clock P d in (Done t, d', [EvClock t]).

(** [sprintf] of the row and [write(log_fd, ...)]. *)
Definition write_row (elapsed : timespec) (value : Z) : prog Z :=
  fun d =>
    let '(d', r) := p_write P d elapsed value in
    (Done r, d', [EvRow elapsed value r]).

Definition send_command (cmd_val : Z) : prog Z :=
  fun d => let '(d', r) := p_send P d cmd_val in (Done r, d', [EvCommand cmd_val r]).

(** *** ldc1101_set_reg *)
Definition ldc1101_set_reg (reg value : Z) : prog Z :=
  let data := [reg; value] in
  rv <- wiringPiSPIxDataRW data 2 ;;
  if fst rv =? -1 then
    syslog (LogWriteFailed reg) ;;; exit EXIT_FAILURE
  else ret 0.

(** *** ldc1101_read_reg
    The array is the caller's; the result pairs the status with the array
    as the call leaves it. *)
Definition ldc1101_read_reg (reg : Z) (data : list Z) (length : nat)
  : prog (Z * list Z) :=
  let data := store data 0 (u8 (Z.lor (Z.shiftl 1 7) reg)) in
  rv <- wiringPiSPIxDataRW data (length + 1) ;;
  if fst rv =? -1 then
    syslog (LogReadFailed reg) ;;; ret (-1, snd rv)
  else ret (0, snd rv).

(** *** ldc1101_init *)
Definition ldc1101_init : prog Z :=
  spi_fd <- wiringPiSPIxSetupMode spi_num spi_chan SPI_SPEED SPI_MODE_3 ;;
  syslog (LogSpiFd spi_fd) ;;;
  if spi_fd =? -1 then
    syslog LogSpiSetupFailed ;;; exit EXIT_FAILURE
  else
    syslog LogSpiInitialized ;;;
    ldc1101_set_reg LDC1101_ALT_CONFIG LOPTIMAL ;;;
    ldc1101_set_reg LDC1101_D_CONF DOK_REPORT ;;;
    let rcount := 0xffff in
    ldc1101_set_reg LDC1101_LHR_RCOUNT_MSB (u8 (Z.land (Z.shiftr rcount 8) 0xFF)) ;;;
    ldc1101_set_reg LDC1101_LHR_RCOUNT_LSB (u8 (Z.land rcount 0xFF)) ;;;
    let rp_value := rp_set HIGH_Q_SENSOR 0x00 0x07 in
    ldc1101_set_reg LDC1101_RP_SET rp_value ;;;
    let reg := LDC1101_CHIP_ID in
    let data := store [0; 0] 0 reg in
    let length := 2%nat in
    rd <- ldc1101_read_reg reg data length ;;
    if fst rd =? -1 then
      syslog LogIdReadFailed ;;; exit EXIT_FAILURE
    else
      let data := snd rd in
      if negb (load data 1 =? SPI_DEV_ID) then
        syslog (LogUnexpectedId (load data 1) SPI_DEV_ID) ;;; exit EXIT_FAILURE
      else
        syslog (LogIdVerified (load data 1)) ;;;
        ldc1101_set_reg LDC1101_START_CONFIG 0 ;;;
        ret 0.

(** *** main: the busy-poll
    [status = 1; while (status != 0) { ... }]; [fuel] bounds the number of
    status reads the model follows. *)
Fixpoint poll (fuel : nat) : prog unit :=
  match fuel with
  | O => spin
  | S fuel' =>
      let reg := LDC1101_LHR_STATUS in
      let data := [reg; 0] in
      rd <- ldc1101_read_reg reg data 2 ;;
      let status := u8 (Z.land (load (snd rd) 1) LDC1101_LHR_DRDY) in
      if negb (status =? 0) then poll fuel' else ret tt
  end.

(** *** main: one pass of the body of [for (i ...)]
    [Some r] when [main] returns [r] from inside the loop. *)
Definition main_sample (fuel : nat) (start_time : timespec) : prog (option Z) :=
  poll fuel ;;;
  let data := [0; 0; 0; 0] in
  rd <- ldc1101_read_reg LDC1101_LHR_DATA_LSB data 4 ;;
  if fst rd =? -1 then
    syslog LogValueFailed ;;; ret None
  else
    current_time <- clock_gettime ;;
    let elapsed_time := get_elapsed_time (long_bits P) start_time current_time in
    let value := decode_value (snd rd) in
    wr <- write_row elapsed_time value ;;
    if wr =? -1 then
      syslog LogFileWriteFailed ;;;
      emit (EvStderr LogFileWriteFailed) ;;;
      emit EvClose ;;;
      ret (Some (-1))
    else ret None.

(** *** main: [for (i = 0; i < num_samples; i++)] *)
Fixpoint main_samples (fuel : nat) (start_time : timespec) (num_samples : nat)
  : prog (option Z) :=
  match num_samples with
  | O => ret None
  | S n =>
      r <- main_sample fuel start_time ;;
      match r with
      | Some v => ret (Some v)
      | None => main_samples fuel start_time n
      end
  end.

(** *** main: [for (step = 0; step < num_steps; step++)] and the epilogue *)
Definition max_cmd : Z := 24000.

Definition main_finish : prog Z :=
  emit EvClose ;;; syslog LogComplete ;;; ret 0.

Fixpoint main_steps (fuel : nat) (start_time : timespec) (num_samples : nat)
    (cmd_inc : Z) (num_steps : nat) (cmd_val : Z) : prog Z :=
  match num_steps with
  | O => main_finish
  | S steps =>
      r <- main_samples fuel start_time num_samples ;;
      match r with
      | Some v => ret v
      | None =>
          let cmd_val := wrap 16 (cmd_val + cmd_inc) in
          if Z.abs cmd_val >? max_cmd then
            syslog (LogCmdLimit max_cmd) ;;; main_finish
          else
            sent <- send_command cmd_val ;;
            if sent =? -1 then
              syslog (LogSendFailed cmd_val) ;;; main_finish
            else main_steps fuel start_time num_samples cmd_inc steps cmd_val
      end
  end.
End Driver.

Arguments ret {P A} a.
Arguments bind {P A B} m k.
Arguments exit {P A} status.
Arguments spin {P A}.

(** ** Reading a run *)

Definition outcome {P A} (r : result A * dev P * list event) : result A :=
  fst (fst r).
Definition final {P A} (r : result A * dev P * list event) : dev P :=
  snd (fst r).
Definition events {P A} (r : result A * dev P * list event) : list event :=
  snd r.

(** The transfers of a run, each with the array it was given and its length
    argument. *)
Fixpoint spi_frames (evs : list event) : list (list Z * nat) :=
  match evs with
  | [] => []
  | EvSpiRW tx len _ _ :: tl => (tx, len) :: spi_frames tl
  | _ :: tl => spi_frames tl
  end.

(** Bit 7 of the address byte tells a read from a write. *)
Definition is_read_frame (tx : list Z) : bool := Z.testbit (load tx 0) 7.

Definition is_write_of (reg : Z) (e : event) : bool :=
  match e with
  | EvSpiRW tx _ _ _ => load tx 0 =? reg
  | _ => false
  end.

Definition is_read_of (reg : Z) (e : event) : bool :=
  match e with
  | EvSpiRW tx _ _ _ => load tx 0 =? Z.lor (Z.shiftl 1 7) reg
  | _ => false
  end.

(** A transfer that returned -1. *)
Definition transfer_failed (e : event) : bool :=
  match e with
  | EvSpiRW _ _ r _ => r =? -1
  | _ => false
  end.

(** A row of the log is a decoded sample. *)
Definition is_decode (e : event) : bool :=
  match e with
  | EvRow _ _ _ => true
  | _ => false
  end.

(** The value byte the program looks at after a status transfer has bit 0
    clear. *)
Definition seen_clear (e : event) : bool :=
  match e with
  | EvSpiRW _ _ _ rx => Z.land (load rx 1) LDC1101_LHR_DRDY =? 0
  | _ => false
  end.

(** The status transfer went through and the byte it read has bit 0 clear. *)
Definition read_ready (e : event) : bool :=
  negb (transfer_failed e) && seen_clear e.

(** The most recent status read, going through [evs] from [last]. *)
Fixpoint track (last : option event) (evs : list event) : option event :=
  match evs with
  | [] => last
  | e :: tl => track (if is_read_of LDC1101_LHR_STATUS e then Some e else last) tl
  end.

(** Every decoded sample of [evs] comes after a status read, and the most
    recent one before it satisfies [ok]. *)
Fixpoint decodes_after (ok : event -> bool) (last : option event)
    (evs : list event) : bool :=
  match evs with
  | [] => true
  | e :: tl =>
      (if is_decode e
       then match last with Some s => ok s | None => false end
       else true)
      && decodes_after ok (if is_read_of LDC1101_LHR_STATUS e then Some e else last) tl
  end.

(** A transfer whose address byte has the direction bit clear. *)
Definition is_write (e : event) : bool :=
  match e with
  | EvSpiRW tx _ _ _ => negb (is_read_frame tx)
  | _ => false
  end.

(** The frame of a status read and of the sample read, as [main] sets them
    up: the array and the length argument. *)
Definition status_frame : list Z * nat :=
  ([Z.lor 0x80 LDC1101_LHR_STATUS; 0], 3%nat).
Definition sample_frame : list Z * nat :=
  ([Z.lor 0x80 LDC1101_LHR_DATA_LSB; 0; 0; 0], 5%nat).

(** For each transfer of [evs], whether the program saw bit 0 clear. *)
Fixpoint status_bits (evs : list event) : list bool :=
  match evs with
  | [] => []
  | EvSpiRW tx len r rx :: tl => seen_clear (EvSpiRW tx len r rx) :: status_bits tl
  | _ :: tl => status_bits tl
  end.

(** What a busy-poll can produce: a status transfer or the log line of a
    failed one. *)
Definition poll_event (e : event) : Prop :=
  (exists r rx, e = EvSpiRW [Z.lor 0x80 LDC1101_LHR_STATUS; 0] 3 r rx)
  \/ e = EvSyslog (LogReadFailed LDC1101_LHR_STATUS).

(** The frames of a complete initialisation, in the order of the source. *)
Definition init_frames : list (list Z * nat) :=
  [ ([LDC1101_ALT_CONFIG; 0x01], 2%nat);
    ([LDC1101_D_CONF; 0x01], 2%nat);
    ([LDC1101_LHR_RCOUNT_MSB; 0xFF], 2%nat);
    ([LDC1101_LHR_RCOUNT_LSB; 0xFF], 2%nat);
    ([LDC1101_RP_SET; 0x07], 2%nat);
    ([Z.lor 0x80 LDC1101_CHIP_ID; 0], 3%nat);
    ([LDC1101_START_CONFIG; 0], 2%nat) ].

(** ** A scripted bus
    The state is the list of answers the bus still has to give, one per
    transfer: the [int] returned and the bytes handed back.  When the script
    is over a transfer succeeds and hands back nothing. *)
Definition scripted : platform :=
  {| dev := list (Z * list Z);
     long_bits := 64;
     p_setup := fun d _ _ _ _ => (d, 3);
     p_transfer := fun d _ len =>
       match d with
       | [] => ([], (Z.of_nat len, []))
       | a :: tl => (tl, a)
       end;
     p_clock := fun d => (d, {| tv_sec := 2; tv_nsec := 500 |});
     p_write := fun d _ _ => (d, 12);
     p_send := fun d _ => (d, 0) |}.

(** A device that answers every configuration write, identifies itself as
    [id] and is ready at once with the sample bytes [b0 b1 b2]. *)
Definition script_ok (id b0 b1 b2 : Z) : list (Z * list Z) :=
  [ (2, [0; 0]); (2, [0; 0]); (2, [0; 0]); (2, [0; 0]); (2, [0; 0]);
    (3, [0; id; 0]); (2, [0; 0]);
    (3, [0; 0; 0]); (5, [0; b0; b1; b2; 0]) ].

Definition t0 : timespec := {| tv_sec := 1; tv_nsec := 900 |}.

(** The device is ready at once and the sample transfer hands back five
    bytes: the one clocked with the address, LSB, MID, MSB and one more. *)
Definition script_sample : list (Z * list Z) :=
  [ (3, [0; 0; 0]); (5, [0; 1; 2; 3; 0x55]) ].

(** The status transfer returns -1 and hands nothing back; the sample
    transfer then goes through. *)
Definition script_status_fails : list (Z * list Z) :=
  [ (-1, []); (5, [0; 1; 2; 3; 0]) ].

(** The first sample transfer returns -1, the second pass goes through. *)
Definition script_sample_fails : list (Z * list Z) :=
  [ (3, [0; 0; 0]); (-1, []); (3, [0; 0; 0]); (5, [0; 0; 0; 1; 0]) ].

(** The second configuration write returns -1. *)
Definition script_write_fails : list (Z * list Z) :=
  [ (2, [0; 0]); (-1, []) ].

(** Two readings a 64-bit [time_t] can hold whose distance it cannot. *)
Definition far_start : timespec := {| tv_sec := - 2 ^ 63; tv_nsec := 0 |}.
Definition far_end : timespec := {| tv_sec := 2 ^ 63 - 1; tv_nsec := 0 |}.

(** ** Reading an acquisition *)

(** The command values sent to the actuator, oldest first. *)
Fixpoint commands (evs : list event) : list Z :=
  match evs with
  | [] => []
  | EvCommand v _ :: tl => v :: commands tl
  | _ :: tl => commands tl
  end.

(** The rows written to the log, oldest first: the value and what [write]
    returned. *)
Fixpoint rows (evs : list event) : list (Z * Z) :=
  match evs with
  | [] => []
  | EvRow _ v wr :: tl => (v, wr) :: rows tl
  | _ :: tl => rows tl
  end.

(** The values [cmd_val] takes in [n] turns of [cmd_val += cmd_inc] on an
    [int16_t]. *)
Fixpoint cmd_iterates (cmd_inc : Z) (n : nat) (cmd_val : Z) : list Z :=
  match n with
  | O => []
  | S k =>
      let c := wrap 16 (cmd_val + cmd_inc) in
      c :: cmd_iterates cmd_inc k c
  end.

(** A bus like [scripted] whose SPI setup fails. *)
Definition no_spi : platform :=
  {| dev := list (Z * list Z);
     long_bits := 64;
     p_setup := fun d _ _ _ _ => (d, -1);
     p_transfer := p_transfer scripted;
     p_clock := p_clock scripted;
     p_write := p_write scripted;
     p_send := p_send scripted |}.

(** The five configuration writes go through, the identity read returns -1. *)
Definition script_id_read_fails : list (Z * list Z) :=
  [ (2, [0; 0]); (2, [0; 0]); (2, [0; 0]); (2, [0; 0]); (2, [0; 0]);
    (-1, []) ].

(** Two passes, the device ready at once in both. *)
Definition script_two_samples : list (Z * list Z) :=
  [ (3, [0; 0; 0]); (5, [0; 1; 2; 3; 0]);
    (3, [0; 0; 0]); (5, [0; 4; 5; 6; 0]) ].

(** ** send_command
    The body of [send_command] is written against [UDP_client.h], which
    the repository does not hold: the macro [CMD_SIZE], the function
    [UDP_send] and the libc function [htons] are parameters, and so is the
    width of [size_t].  The buffer handed to [UDP_send] is given by the
    values the loop stores in it. *)

Inductive send_report : Type :=
| ReportFailed
| ReportSent (bytes_sent : Z).

Section SendCommand.
Variable size_bits : Z.
Variable CMD_SIZE : nat.
Variable D : Type.
Variable htons : Z -> Z.
Variable UDP_send : D -> list Z -> D * Z.

(** [size_t bytes_sent = UDP_send(buf_data)]: the conversion to an unsigned
    type, then [bytes_sent <= 0]. *)
Definition send_command_body (d : D) (cmd_val : Z) : D * Z * send_report :=
  let buf_data := repeat (htons cmd_val) (CMD_SIZE / 2) in
  let '(d', sent) := UDP_send d buf_data in
  let bytes_sent := sent mod 2 ^ size_bits in
  if bytes_sent <=? 0 then (d', -1, ReportFailed)
  else (d', 0, ReportSent bytes_sent).
End SendCommand.

(** A datagram layer that fails the way [sendto] does. *)
Definition udp_down (d : unit) (buf : list Z) : unit * Z := (d, -1).

(** ** main: the command line *)

Module Literals.
Import Stdlib.Strings.String.
Local Open Scope string_scope.
Definition default_logfile : string := "./testing/ldc1101_log.csv".
Definition ip : string := "127.0.0.0".
Definition port : string := "2345".
Definition long_name : string :=
  "/var/log/kasm/ldc1101/measurement-campaign-2025-08-15.csv".
End Literals.

(** What [getopt] hands to the [switch], one entry per turn of the loop:
    for [-l] the argument, for [-n], [-v] and [-s] the [int] that [atoi]
    makes of it, and any other return value ([-h], [?]) as it is. *)
Inductive cli_option : Type :=
| Opt_l (optarg : String.string)
| Opt_n (value : Z)
| Opt_v (value : Z)
| Opt_s (value : Z)
| Opt_other (opt : Z).

(** The variables of [main] the options set. *)
Record settings : Type := {
  cfg_logfile : String.string;
  cfg_num_samples : Z;
  cfg_cmd_inc : Z;
  cfg_num_steps : Z
}.

Definition default_settings : settings :=
  {| cfg_logfile := Literals.default_logfile;
     cfg_num_samples := 500;
     cfg_cmd_inc := 1000;
     cfg_num_steps := 1 |}.

Inductive main_msg : Type :=
| MsgStarting
| MsgLogfileSet (name : String.string)
| MsgNumSamples (n : Z)
| MsgNumSamplesInvalid
| MsgIncrementSet (v : Z)
| MsgNumStepsInvalid
| MsgNumStepsSet (n : Z)
| MsgUsage
| MsgNoSocket
| MsgUdpInitialized
| MsgLdcInitialized
| MsgOpenFailed (name : String.string)
| MsgHeaderFailed.

(** The events of [main]: those of the driver and of the loops, and its
    own. *)
Inductive main_event : Type :=
| Drv (e : event)
| MSyslog (m : main_msg)
| MStderr (m : main_msg)
| MOpenlog
| MUdpInit (ip port : String.string) (fd : Z)
| MUsleep (usec : Z)
| MWiringPiSetup
| MOpen (name : String.string) (fd : Z)
| MHeader (ret : Z).

(** One turn of [switch (opt)].  [strncpy(logfile, optarg, sizeof(logfile) - 1)]
    with the terminator at index 49 keeps the first 49 characters. *)
Definition parse_option (o : cli_option) (s : settings)
  : result settings * list main_event :=
  match o with
  | Opt_l optarg =>
      let name := String.substring 0 49 optarg in
      (Done {| cfg_logfile := name;
               cfg_num_samples := cfg_num_samples s;
               cfg_cmd_inc := cfg_cmd_inc s;
               cfg_num_steps := cfg_num_steps s |},
       [MSyslog (MsgLogfileSet name)])
  | Opt_n value =>
      if (value <=? 0) || (value >? 1000) then
        (Exited EXIT_FAILURE,
         [MSyslog (MsgNumSamples value); MSyslog MsgNumSamplesInvalid])
      else
        (Done {| cfg_logfile := cfg_logfile s;
                 cfg_num_samples := value;
                 cfg_cmd_inc := cfg_cmd_inc s;
                 cfg_num_steps := cfg_num_steps s |},
         [MSyslog (MsgNumSamples value)])
  | Opt_v value =>
      let inc := wrap 16 value in
      (Done {| cfg_logfile := cfg_logfile s;
               cfg_num_samples := cfg_num_samples s;
               cfg_cmd_inc := inc;
               cfg_num_steps := cfg_num_steps s |},
       [MSyslog (MsgIncrementSet inc)])
  | Opt_s value =>
      if value <=? 0 then
        (Exited EXIT_FAILURE, [MSyslog MsgNumStepsInvalid])
      else
        (Done {| cfg_logfile := cfg_logfile s;
                 cfg_num_samples := cfg_num_samples s;
                 cfg_cmd_inc := cfg_cmd_inc s;
                 cfg_num_steps := value |},
         [MSyslog (MsgNumStepsSet value)])
  | Opt_other _ => (Exited EXIT_FAILURE, [MStderr MsgUsage])
  end.

(** [while ((opt = getopt(...)) != -1) switch (opt) ...] *)
Fixpoint parse_options (opts : list cli_option) (s : settings)
  : result settings * list main_event :=
  match opts with
  | [] => (Done s, [])
  | o :: tl =>
      match parse_option o s with
      | (Done s', e1) =>
          let '(r, e2) := parse_options tl s' in (r, e1 ++ e2)
      | (Exited c, e1) => (Exited c, e1)
      | (Spinning, e1) => (Spinning, e1)
      end
  end.

(** What the options leave in the variables when the loop is passed. *)
Definition settings_ok (s : settings) : Prop :=
  (String.length (cfg_logfile s) <= 49)%nat /\
  1 <= cfg_num_samples s <= 1000 /\
  - 32768 <= cfg_cmd_inc s < 32768 /\
  1 <= cfg_num_steps s.

(** ** main
    The host adds to the platform what [main] itself calls: [UDP_init],
    [open] on the log file and the [write] of the header. *)
Record host : Type := {
  h_platform : platform;
  h_udp_init : dev h_platform -> String.string -> String.string
               -> dev h_platform * Z;
  h_open : dev h_platform -> String.string -> dev h_platform * Z;
  h_header : dev h_platform -> dev h_platform * Z
}.

Definition start_value : Z := 100.

Section Main.
Variable H : host.

Definition mprog (A : Type) : Type :=
  dev (h_platform H) -> result A * dev (h_platform H) * list main_event.

Definition mret {A} (a : A) : mprog A := fun d => (Done a, d, []).

Definition mbind {A B} (m : mprog A) (k : A -> mprog B) : mprog B :=
  fun d =>
    match m d with
    | (Done a, d1, e1) =>
        match k a d1 with
        | (r, d2, e2) => (r, d2, e1 ++ e2)
        end
    | (Exited s, d1, e1) => (Exited s, d1, e1)
    | (Spinning, d1, e1) => (Spinning, d1, e1)
    end.

Notation "x <- m ;; k" := (mbind m (fun x => k))
  (at level 61, m at next level, right associativity).
Notation "m ;;; k" := (mbind m (fun _ => k))
  (at level 61, right associativity).

Definition mexit {A} (status : Z) : mprog A := fun d => (Exited status, d, []).
Definition memit (e : main_event) : mprog unit := fun d => (Done tt, d, [e]).
Definition msyslog (m : main_msg) : mprog unit := memit (MSyslog m).

(** A function of the driver or of the loops, run inside [main]. *)
Definition lift {A} (p : prog (h_platform H) A) : mprog A :=
  fun d => match p d with (r, d', evs) => (r, d', map Drv evs) end.

(** The outcome of the option loop, which touches nothing outside. *)
Definition parsed (r : result settings * list main_event) : mprog settings :=
  fun d => (fst r, d, snd r).

Definition UDP_init (ip port : String.string) : mprog Z :=
  fun d => let '(d', fd) := h_udp_init H d ip port in (Done fd, d', [MUdpInit ip port fd]).

Definition open_log (name : String.string) : mprog Z :=
  fun d => let '(d', fd) := h_open H d name in (Done fd, d', [MOpen name fd]).

Definition write_header : mprog Z :=
  fun d => let '(d', r) := h_header H d in (Done r, d', [MHeader r]).

(** From the opening of the log file to the end of [main]. *)
Definition main_log (fuel : nat) (start_time : timespec) (s : settings) : mprog Z :=
  log_fd <- open_log (cfg_logfile s) ;;
  if log_fd =? -1 then
    memit (MStderr (MsgOpenFailed (cfg_logfile s))) ;;; mret (-1)
  else
    wr <- write_header ;;
    if wr =? -1 then
      memit (MStderr MsgHeaderFailed) ;;; memit (Drv EvClose) ;;; mret (-1)
    else
      lift (main_steps (h_platform H) fuel start_time
              (Z.to_nat (cfg_num_samples s)) (cfg_cmd_inc s)
              (Z.to_nat (cfg_num_steps s)) 0).

(** From the first command to the initialisation of the sensor. *)
Definition main_bringup (fuel : nat) (start_time : timespec) (s : settings)
  : mprog Z :=
  lift (send_command (h_platform H) start_value) ;;;
  memit (MUsleep 100000) ;;;
  memit MWiringPiSetup ;;;
  spi_fd <- lift (wiringPiSPIxSetupMode (h_platform H)
                    spi_num spi_chan SPI_SPEED SPI_MODE_3) ;;
  if spi_fd =? -1 then
    lift (syslog (h_platform H) LogSpiSetupFailed) ;;; mexit EXIT_FAILURE
  else
    lift (syslog (h_platform H) LogSpiInitialized) ;;;
    lift (ldc1101_init (h_platform H)) ;;;
    msyslog MsgLdcInitialized ;;;
    main_log fuel start_time s.

Definition main (fuel : nat) (opts : list cli_option) : mprog Z :=
  start_time <- lift (clock_gettime (h_platform H)) ;;
  memit MOpenlog ;;;
  msyslog MsgStarting ;;;
  s <- parsed (parse_options opts default_settings) ;;
  fd <- UDP_init Literals.ip Literals.port ;;
  if fd <? 0 then
    msyslog MsgNoSocket ;;; mexit EXIT_FAILURE
  else
    msyslog MsgUdpInitialized ;;;
    main_bringup fuel start_time s.
End Main.

Arguments mret {H A} a.
Arguments mbind {H A B} m k.
Arguments mexit {H A} status.
Arguments lift {H A} p.

(** ** Reading a run of main *)

Definition m_outcome {H A}
    (r : result A * dev (h_platform H) * list main_event) : result A :=
  fst (fst r).
Definition m_events {H A}
    (r : result A * dev (h_platform H) * list main_event) : list main_event :=
  snd r.

(** The events of the driver and of the loops inside a run of [main]. *)
Fixpoint driver_events (evs : list main_event) : list event :=
  match evs with
  | [] => []
  | Drv e :: tl => e :: driver_events tl
  | _ :: tl => driver_events tl
  end.

(** The scripted bus as a host: [UDP_init] gives [udp_fd], [open] gives
    [log_fd], the header is written. *)
Definition scripted_host (udp_fd log_fd : Z) : host :=
  {| h_platform := scripted;
     h_udp_init := fun d _ _ => (d, udp_fd);
     h_open := fun d _ => (d, log_fd);
     h_header := fun d => (d, 17) |}.

(** An option the loop passes. *)
Definition option_ok (o : cli_option) : Prop :=
  match o with
  | Opt_l _ => True
  | Opt_n value => 1 <= value <= 1000
  | Opt_v _ => True
  | Opt_s value => 1 <= value
  | Opt_other _ => False
  end.

(** A platform whose [send_command] is the body above, on the datagram
    layer [UDP_send]. *)
Definition with_udp (P : platform) (size_bits : Z) (CMD_SIZE : nat)
    (htons : Z -> Z) (UDP_send : dev P -> list Z -> dev P * Z) : platform :=
  {| dev := dev P;
     long_bits := long_bits P;
     p_setup := p_setup P;
     p_transfer := p_transfer P;
     p_clock := p_clock P;
     p_write := p_write P;
     p_send := fun d cmd_val =>
       fst (send_command_body size_bits CMD_SIZE (dev P) htons UDP_send d cmd_val) |}.

(** The event is not the log line of a command that could not be sent, and
    if it is a command, [send_command] returned 0. *)
Definition sent_fine (e : event) : Prop :=
  (forall c, e <> EvSyslog (LogSendFailed c)) /\
  (forall c r, e = EvCommand c r -> r = 0).

(** ** Reading a failure *)

(** The SPI setup returned -1. *)
Definition setup_failed (e : event) : bool :=
  match e with
  | EvSpiSetup _ _ _ _ fd => fd =? -1
  | _ => false
  end.

(** A write to a configuration register other than START_CONFIG whose
    transfer returned -1. *)
Definition config_write_failed (e : event) : bool :=
  is_write e && transfer_failed e && negb (is_write_of LDC1101_START_CONFIG e).

(** * Properties *)

(** ** Machine integers *)

Lemma pow2_split (w : Z) : 0 < w -> 2 ^ w = 2 * 2 ^ (w - 1).
Proof.
  intros Hw. replace w with (Z.succ (w - 1)) at 1 by lia.
  rewrite Z.pow_succ_r by lia. reflexivity.
Qed.

Lemma wrap_small (w x : Z) : 0 < w -> in_long w x -> wrap w x = x.
Proof.
  unfold wrap, in_long. intros Hw Hx.
  pose proof (pow2_split w Hw) as E.
  rewrite Z.mod_small by lia. lia.
Qed.

Lemma long_holds_nsec (w : Z) : 32 <= w -> 2147483648 <= 2 ^ (w - 1).
Proof.
  intros Hw. change 2147483648 with (2 ^ 31).
  apply Z.pow_le_mono_r; lia.
Qed.

Lemma u8_range (x : Z) : 0 <= u8 x < 256.
Proof. unfold u8. change (2 ^ 8) with 256. apply Z.mod_pos_bound. lia. Qed.

Lemma u8_small (x : Z) : 0 <= x < 256 -> u8 x = x.
Proof. intros H. unfold u8. change (2 ^ 8) with 256. apply Z.mod_small. exact H. Qed.

Lemma testbit_u8 (x i : Z) : 0 <= i < 8 -> Z.testbit (u8 x) i = Z.testbit x i.
Proof. intros H. unfold u8. apply Z.mod_pow2_bits_low. lia. Qed.

Lemma small_high_bits (n x i : Z) :
  0 <= n -> 0 <= x < 2 ^ n -> n <= i -> Z.testbit x i = false.
Proof.
  intros Hn Hx Hi. rewrite <- (Z.mod_small x (2 ^ n)) by exact Hx.
  apply Z.mod_pow2_bits_high. lia.
Qed.

(** A byte placed above [lo] by a shift does not overlap it: the bitwise or
    is the sum. *)
Lemma lor_shiftl_add (n hi lo : Z) :
  0 <= n -> 0 <= lo < 2 ^ n ->
  Z.lor (Z.shiftl hi n) lo = hi * 2 ^ n + lo.
Proof.
  intros Hn Hlo. rewrite <- Z.shiftl_mul_pow2 by exact Hn.
  assert (Hdisj : Z.land (Z.shiftl hi n) lo = 0).
  { apply Z.bits_inj'. intros i Hi.
    rewrite Z.land_spec, Z.bits_0.
    destruct (Z.lt_ge_cases i n) as [Hlt | Hge].
    - rewrite Z.shiftl_spec_low by exact Hlt. reflexivity.
    - rewrite (small_high_bits n lo i) by assumption. apply andb_false_r. }
  pose proof (Z.add_lor_land (Z.shiftl hi n) lo) as E.
  rewrite Hdisj in E. lia.
Qed.

(** ** get_elapsed_time *)

(** C10, as amended: for [start] and [end_] held in [long]s of at least 32
    bits, with both nanosecond fields in [0, 10^9), [end_] not before [start]
    and the difference of the seconds again a [long], [get_elapsed_time]
    returns the exact difference [end_ - start] with its nanosecond field in
    [0, 10^9). *)
Theorem get_elapsed_time_fits (w : Z) (start end_ : timespec) :
  32 <= w ->
  in_long w (tv_sec start) -> in_long w (tv_sec end_) ->
  0 <= tv_nsec start < 1000000000 ->
  0 <= tv_nsec end_ < 1000000000 ->
  ns_of start <= ns_of end_ ->
  tv_sec end_ - tv_sec start < 2 ^ (w - 1) ->
  0 <= tv_nsec (get_elapsed_time w start end_) < 1000000000 /\
  ns_of (get_elapsed_time w start end_) = ns_of end_ - ns_of start.
Proof.
  intros Hw Hs He Hns Hne Hle Hfit.
  pose proof (long_holds_nsec w Hw) as HM.
  destruct start as [ss sn], end_ as [es en].
  unfold get_elapsed_time, ns_of, in_long in *. cbn [tv_sec tv_nsec] in *.
  assert (Hw0 : 0 < w) by lia.
  rewrite (wrap_small w (en - sn)) by (unfold in_long; lia).
  destruct (Z.ltb_spec (en - sn) 0) as [Hneg | Hpos]; cbn [tv_sec tv_nsec].
  - rewrite (wrap_small w (es - ss)) by (unfold in_long; lia).
    rewrite (wrap_small w (es - ss - 1)) by (unfold in_long; lia).
    rewrite (wrap_small w (1000000000 + en)) by (unfold in_long; lia).
    rewrite (wrap_small w (1000000000 + en - sn)) by (unfold in_long; lia).
    lia.
  - rewrite (wrap_small w (es - ss)) by (unfold in_long; lia).
    lia.
Qed.

Lemma get_elapsed_time_fits_witness :
  0 <= tv_nsec (get_elapsed_time 64 t0 {| tv_sec := 2; tv_nsec := 500 |}) < 1000000000 /\
  ns_of (get_elapsed_time 64 t0 {| tv_sec := 2; tv_nsec := 500 |})
  = ns_of {| tv_sec := 2; tv_nsec := 500 |} - ns_of t0.
Proof.
  apply (get_elapsed_time_fits 64 t0 {| tv_sec := 2; tv_nsec := 500 |});
    unfold in_long, ns_of, t0; simpl; lia.
Defined.

(** C10 as stated fails: both readings are valid, [far_end] is after
    [far_start], yet the seconds' subtraction leaves the range of a 64-bit
    [long] and the result is not the difference. *)
Lemma get_elapsed_time_far_apart :
  in_long 64 (tv_sec far_start) /\ in_long 64 (tv_sec far_end) /\
  0 <= tv_nsec far_start < 1000000000 /\
  0 <= tv_nsec far_end < 1000000000 /\
  ns_of far_start <= ns_of far_end /\
  get_elapsed_time 64 far_start far_end = {| tv_sec := -1; tv_nsec := 0 |} /\
  ns_of (get_elapsed_time 64 far_start far_end) <> ns_of far_end - ns_of far_start.
Proof.
  unfold in_long, ns_of, far_start, far_end. cbn [tv_sec tv_nsec].
  repeat split; try lia; try reflexivity.
  vm_compute. discriminate.
Qed.

(** ** Sample decoding *)

Lemma decode_value_sum (a b0 b1 b2 : Z) :
  0 <= b0 < 256 -> 0 <= b1 < 256 -> 0 <= b2 < 256 ->
  decode_value [a; b0; b1; b2] = b0 + 256 * b1 + 65536 * b2.
Proof.
  intros H0 H1 H2. unfold decode_value, load. cbn [nth].
  rewrite <- Z.lor_assoc.
  rewrite (lor_shiftl_add 8 b1 b0) by (change (2 ^ 8) with 256; lia).
  rewrite (lor_shiftl_add 16 b2 (b1 * 2 ^ 8 + b0))
    by (change (2 ^ 8) with 256; change (2 ^ 16) with 65536; lia).
  unfold u32. change (2 ^ 8) with 256. change (2 ^ 16) with 65536.
  change (2 ^ 32) with 4294967296.
  rewrite Z.mod_small by lia. lia.
Qed.

(** C6: the three value bytes [b0 b1 b2] that follow the address byte decode
    to [b0 | (b1 << 8) | (b2 << 16)], which is [b0 + 2^8 b1 + 2^16 b2]: an
    unsigned value below [2^24], never negative; [1 2 3] gives [0x030201] and
    [0 0 1] gives [65536]. *)
Theorem decode_value_little_endian (a b0 b1 b2 : Z) :
  0 <= b0 < 256 -> 0 <= b1 < 256 -> 0 <= b2 < 256 ->
  decode_value [a; b0; b1; b2] = Z.lor b0 (Z.lor (Z.shiftl b1 8) (Z.shiftl b2 16)) /\
  decode_value [a; b0; b1; b2] = b0 + 256 * b1 + 65536 * b2 /\
  0 <= decode_value [a; b0; b1; b2] < 2 ^ 24 /\
  decode_value [a; 0x01; 0x02; 0x03] = 0x030201 /\
  decode_value [a; 0; 0; 1] = 65536.
Proof.
  intros H0 H1 H2. split; [| split; [| split; [| split]]].
  - rewrite (Z.lor_comm b0), (Z.lor_comm (Z.shiftl b1 8)).
    rewrite (decode_value_sum a b0 b1 b2) by assumption.
    rewrite <- Z.lor_assoc.
    rewrite (lor_shiftl_add 8 b1 b0) by (change (2 ^ 8) with 256; lia).
    rewrite (lor_shiftl_add 16 b2 (b1 * 2 ^ 8 + b0))
      by (change (2 ^ 8) with 256; change (2 ^ 16) with 65536; lia).
    change (2 ^ 8) with 256. change (2 ^ 16) with 65536. lia.
  - apply decode_value_sum; assumption.
  - rewrite decode_value_sum by assumption.
    change (2 ^ 24) with 16777216. lia.
  - reflexivity.
  - reflexivity.
Qed.

Lemma decode_value_little_endian_witness :
  decode_value [0xB8; 0xFF; 0x00; 0x80] = 0xFF + 256 * 0x00 + 65536 * 0x80.
Proof.
  apply (decode_value_little_endian 0xB8 0xFF 0x00 0x80); lia.
Defined.

(** ** RP_SET composition *)

Lemma rp_set_bit (high_q rpmax rpmin i : Z) :
  0 <= i < 8 ->
  Z.testbit (rp_set high_q rpmax rpmin) i
  = ((Z.testbit high_q i
      || (Z.testbit (Z.shiftl rpmax 4) i && Z.testbit 0x70 i)
      || (Z.testbit rpmin i && Z.testbit 0x07 i))
     && Z.testbit 0xF7 i)%bool.
Proof.
  intros Hi. unfold rp_set. cbv zeta.
  rewrite testbit_u8 by exact Hi.
  rewrite Z.land_spec, !Z.lor_spec, !Z.land_spec.
  reflexivity.
Qed.

(** C9: in the byte written to RP_SET the selector is bit 7, RP_MAX is bits
    6:4, RP_MIN is bits 2:0 and bit 3 is 0; with [rpmin = 0x07],
    [rpmax = 0x00] and the selector 0, as in the source, the byte is [0x07]. *)
Theorem rp_set_layout (sel rpmax rpmin : Z) :
  0 <= sel <= 1 -> 0 <= rpmax < 256 -> 0 <= rpmin < 256 ->
  Z.testbit (rp_set (HIGH_Q sel) rpmax rpmin) 7 = Z.testbit sel 0 /\
  (forall i, 0 <= i < 3 ->
     Z.testbit (rp_set (HIGH_Q sel) rpmax rpmin) (4 + i) = Z.testbit rpmax i) /\
  (forall i, 0 <= i < 3 ->
     Z.testbit (rp_set (HIGH_Q sel) rpmax rpmin) i = Z.testbit rpmin i) /\
  Z.testbit (rp_set (HIGH_Q sel) rpmax rpmin) 3 = false /\
  0 <= rp_set (HIGH_Q sel) rpmax rpmin < 256 /\
  rp_set HIGH_Q_SENSOR 0x00 0x07 = 0x07.
Proof.
  intros Hs Hmax Hmin.
  assert (Hq : forall i, 0 <= i < 7 -> Z.testbit (HIGH_Q sel) i = false).
  { intros i Hi. unfold HIGH_Q. apply Z.shiftl_spec_low. lia. }
  assert (Hq7 : Z.testbit (HIGH_Q sel) 7 = Z.testbit sel 0).
  { unfold HIGH_Q. rewrite Z.shiftl_spec by lia. reflexivity. }
  assert (Hx : forall i, 0 <= i < 4 -> Z.testbit (Z.shiftl rpmax 4) i = false).
  { intros i Hi. apply Z.shiftl_spec_low. lia. }
  assert (Hx' : forall i, 0 <= i ->
                          Z.testbit (Z.shiftl rpmax 4) (4 + i) = Z.testbit rpmax i).
  { intros i Hi. rewrite Z.shiftl_spec by lia. f_equal. lia. }
  split; [| split; [| split; [| split; [| split]]]].
  - rewrite rp_set_bit by lia. rewrite Hq7.
    change (Z.testbit 0x70 7) with false. change (Z.testbit 0x07 7) with false.
    change (Z.testbit 0xF7 7) with true.
    rewrite !andb_false_r, !orb_false_r, andb_true_r. reflexivity.
  - intros i Hi. rewrite rp_set_bit by lia.
    rewrite Hq by lia. rewrite Hx' by lia.
    assert (E : i = 0 \/ i = 1 \/ i = 2) by lia.
    destruct E as [-> | [-> | ->]]; cbn [Z.add Pos.add];
      rewrite ?andb_false_r, ?andb_true_r, ?orb_false_r; reflexivity.
  - intros i Hi. rewrite rp_set_bit by lia.
    rewrite Hq by lia. rewrite Hx by lia.
    assert (E : i = 0 \/ i = 1 \/ i = 2) by lia.
    destruct E as [-> | [-> | ->]];
      cbn [orb andb];
      rewrite ?andb_false_r, ?andb_true_r, ?orb_false_r; reflexivity.
  - rewrite rp_set_bit by lia.
    change (Z.testbit 0xF7 3) with false. apply andb_false_r.
  - unfold rp_set. apply u8_range.
  - reflexivity.
Qed.

Lemma rp_set_layout_witness :
  Z.testbit (rp_set (HIGH_Q 1) 0x05 0x03) 7 = Z.testbit 1 0.
Proof.
  apply (rp_set_layout 1 0x05 0x03); lia.
Defined.

(** ** Arrays *)

Lemma store_length (data : list Z) (i : nat) (v : Z) :
  length (store data i v) = length data.
Proof.
  revert i. induction data as [| hd tl IH]; intros i; [reflexivity |].
  destruct i; cbn [store length]; [reflexivity | rewrite IH; reflexivity].
Qed.

Lemma receive_length (data resp : list Z) :
  length (receive data resp) = length data.
Proof.
  revert resp. induction data as [| hd tl IH]; intros resp; [reflexivity |].
  destruct resp; cbn [receive length]; [reflexivity | rewrite IH; reflexivity].
Qed.

Lemma receive_bytes (data resp : list Z) :
  Forall (fun b => 0 <= b < 256) data ->
  Forall (fun b => 0 <= b < 256) (receive data resp).
Proof.
  revert resp. induction data as [| hd tl IH]; intros resp H; [constructor |].
  destruct resp; cbn [receive]; [exact H |].
  inversion H; subst. constructor; [apply u8_range | apply IH; assumption].
Qed.

Lemma checked_span_past (data : list Z) (from len : nat) :
  (0 < len)%nat -> (length data < from + len)%nat ->
  checked_span data from len = None.
Proof.
  revert from. induction len as [| len IH]; intros from Hpos H; [lia |].
  cbn [checked_span]. unfold checked_load.
  destruct (nth_error data from) as [b |] eqn:E; [| reflexivity].
  assert (from < length data)%nat by (apply nth_error_Some; congruence).
  rewrite IH by lia. reflexivity.
Qed.

(** ** Runs of the two register-access functions *)

(** A write is one transfer of the two bytes [reg; value]; when it returns
    -1 the process exits after logging, otherwise the function returns 0. *)
Lemma set_reg_cases (P : platform) (reg value : Z) (d : dev P) :
  exists d' r rx,
    (r = -1 /\
     ldc1101_set_reg P reg value d
     = (Exited EXIT_FAILURE, d',
        [EvSpiRW [reg; value] 2 r rx; EvSyslog (LogWriteFailed reg)]))
    \/
    (r <> -1 /\
     ldc1101_set_reg P reg value d
     = (Done 0, d', [EvSpiRW [reg; value] 2 r rx])).
Proof.
  unfold ldc1101_set_reg, bind, wiringPiSPIxDataRW, syslog, emit, exit, ret.
  destruct (p_transfer P d [reg; value] 2) as [d' [r resp]].
  exists d', r, (receive [reg; value] resp). cbn [fst snd].
  destruct (Z.eqb_spec r (-1)) as [E | E]; [left | right];
    (split; [exact E | reflexivity]).
Qed.

(** A read puts [0x80 | reg] in the first cell and is one transfer with
    length argument [length + 1]; it returns -1 after logging when the
    transfer returns -1, and 0 otherwise, with the array as the transfer
    leaves it. *)
Lemma read_reg_cases (P : platform) (reg : Z) (data : list Z) (length : nat)
    (d : dev P) :
  exists d' r resp,
    let tx := store data 0 (u8 (Z.lor (Z.shiftl 1 7) reg)) in
    let rx := receive tx resp in
    (r = -1 /\
     ldc1101_read_reg P reg data length d
     = (Done (-1, rx), d',
        [EvSpiRW tx (length + 1) r rx; EvSyslog (LogReadFailed reg)]))
    \/
    (r <> -1 /\
     ldc1101_read_reg P reg data length d
     = (Done (0, rx), d', [EvSpiRW tx (length + 1) r rx])).
Proof.
  unfold ldc1101_read_reg, bind, wiringPiSPIxDataRW, syslog, emit, ret.
  destruct (p_transfer P d (store data 0 (u8 (Z.lor (Z.shiftl 1 7) reg)))
              (length + 1)) as [d' [r resp]].
  exists d', r, resp. cbn [fst snd].
  destruct (Z.eqb_spec r (-1)) as [E | E]; [left | right];
    (split; [exact E | reflexivity]).
Qed.

(** A write, from what the platform answers: one transfer of the two bytes
    [reg; value], then the log line and [exit] when it returned -1. *)
Lemma set_reg_run (P : platform) (reg value : Z) (d : dev P) :
  ldc1101_set_reg P reg value d
  = let tr := p_transfer P d [reg; value] 2 in
    let e := EvSpiRW [reg; value] 2 (fst (snd tr))
               (receive [reg; value] (snd (snd tr))) in
    if fst (snd tr) =? -1 then
      (Exited EXIT_FAILURE, fst tr, [e; EvSyslog (LogWriteFailed reg)])
    else (Done 0, fst tr, [e]).
Proof.
  unfold ldc1101_set_reg, bind, wiringPiSPIxDataRW, syslog, emit, exit, ret.
  cbv zeta.
  destruct (p_transfer P d [reg; value] 2) as [d' [r resp]]. cbn [fst snd].
  destruct (r =? -1); reflexivity.
Qed.

(** ** Stepping through a run *)

Ltac run_set_reg :=
  match goal with
  | |- context [ldc1101_set_reg ?P ?r ?v ?d] =>
      let d' := fresh "d" in
      let ret := fresh "r" in
      let rx := fresh "rx" in
      let Hr := fresh "Hr" in
      let E := fresh "E" in
      destruct (set_reg_cases P r v d) as (d' & ret & rx & [[Hr E] | [Hr E]]);
      rewrite E; clear E; cbv beta iota
  end.

Ltac run_read_reg :=
  match goal with
  | |- context [ldc1101_read_reg ?P ?r ?data ?n ?d] =>
      let d' := fresh "d" in
      let ret := fresh "r" in
      let resp := fresh "resp" in
      let Hr := fresh "Hr" in
      let E := fresh "E" in
      destruct (read_reg_cases P r data n d) as (d' & ret & resp & [[Hr E] | [Hr E]]);
      cbv zeta in E; rewrite E; clear E; cbv beta iota
  end.

Ltac run_init :=
  unfold ldc1101_init;
  cbv beta iota zeta delta [bind ret exit emit syslog wiringPiSPIxSetupMode];
  match goal with
  | |- context [p_setup ?P ?d ?a ?b ?c ?e] =>
      let d' := fresh "d" in
      let fd := fresh "fd" in
      destruct (p_setup P d a b c e) as [d' fd]; cbv beta iota;
      let Hfd := fresh "Hfd" in
      destruct (Z.eqb_spec fd (-1)) as [Hfd | Hfd]; cbv beta iota
  end.

Lemma chip_id_frame :
  store (store [0; 0] 0 LDC1101_CHIP_ID) 0 (u8 (Z.lor (Z.shiftl 1 7) LDC1101_CHIP_ID))
  = [0xBF; 0].
Proof. reflexivity. Qed.

(** Every path through [ldc1101_init]: the setup fails; one of the five
    configuration writes fails; the identity read fails; the identity does
    not match; the start write fails; or the function returns. *)
Ltac init_paths :=
  run_init;
  [ | repeat run_set_reg;
      [ | | | | |
        run_read_reg; cbn [fst snd];
        rewrite ?chip_id_frame;
        [ change (-1 =? -1) with true; cbv beta iota
        | change (0 =? -1) with false; cbv beta iota;
          match goal with
          | |- context [receive [0xBF; 0] ?resp] =>
              let rx := fresh "rx" in
              let Erx := fresh "Erx" in
              remember (receive [0xBF; 0] resp) as rx eqn:Erx;
              let Hid := fresh "Hid" in
              destruct (Z.eqb_spec (load rx 1) SPI_DEV_ID) as [Hid | Hid];
              cbn [negb]; cbv beta iota;
              [ run_set_reg | ]
          end ] ] ];
  cbn [app outcome events final fst snd].

(** Splitting a membership in an explicit list of events. *)
Ltac split_in H :=
  repeat (destruct H as [H | H]); try contradiction H.

(** ** Frame encoding *)

Lemma land_7f (a : Z) : 0 <= a <= 0x7F -> Z.land a 0x7F = a.
Proof.
  intros H. change 0x7F with (Z.ones 7).
  rewrite Z.land_ones by lia. apply Z.mod_small.
  change (2 ^ 7) with 128. lia.
Qed.

Lemma read_address (a : Z) :
  0 <= a <= 0x7F -> u8 (Z.lor (Z.shiftl 1 7) a) = Z.lor a 0x80.
Proof.
  intros H. rewrite (Z.lor_comm a).
  change 0x80 with (Z.shiftl 1 7).
  rewrite (lor_shiftl_add 7 1 a) by (change (2 ^ 7) with 128; lia).
  apply u8_small. change (2 ^ 7) with 128. lia.
Qed.

(** C7: for an address [a] in [0, 0x7F] and any value [v], the write hands
    the transport the two bytes [a & 0x7F; v], and a read hands it an array
    whose first byte is [a | 0x80]: bit 7 set, the address in the low bits. *)
Theorem frame_encoding (P : platform) (d : dev P) (a v : Z) :
  0 <= a <= 0x7F ->
  (exists r rx rest,
     events (ldc1101_set_reg P a v d)
     = EvSpiRW [Z.land a 0x7F; v] 2 r rx :: rest) /\
  (forall b data length,
     exists r rx rest,
       events (ldc1101_read_reg P a (b :: data) length d)
       = EvSpiRW (Z.lor a 0x80 :: data) (length + 1) r rx :: rest /\
       Z.testbit (Z.lor a 0x80) 7 = true /\
       Z.land (Z.lor a 0x80) 0x7F = a).
Proof.
  intros Ha. split.
  - rewrite land_7f by exact Ha.
    destruct (set_reg_cases P a v d) as (d' & r & rx & [[_ E] | [_ E]]);
      rewrite E; cbn [events snd]; eauto.
  - intros b data length.
    destruct (read_reg_cases P a (b :: data) length d)
      as (d' & r & resp & [[_ E] | [_ E]]);
      cbv zeta in E; rewrite E; cbn [events snd store];
      rewrite read_address by exact Ha;
      (do 3 eexists; split; [reflexivity |]);
      (split;
       [ rewrite Z.lor_spec; change (Z.testbit 0x80 7) with true; apply orb_true_r
       | change 0x80 with (Z.shiftl 1 7); rewrite (Z.lor_comm a);
         rewrite (lor_shiftl_add 7 1 a) by (change (2 ^ 7) with 128; lia);
         change 0x7F with (Z.ones 7); rewrite Z.land_ones by lia;
         change (2 ^ 7) with 128;
         rewrite Z.add_comm, Z.mod_add by lia; apply Z.mod_small; lia ]).
Qed.

Lemma frame_encoding_witness :
  exists r rx rest,
    events (ldc1101_set_reg scripted LDC1101_D_CONF DOK_REPORT (script_ok 0xD4 1 2 3))
    = EvSpiRW [Z.land LDC1101_D_CONF 0x7F; DOK_REPORT] 2 r rx :: rest.
Proof.
  apply (frame_encoding scripted (script_ok 0xD4 1 2 3) LDC1101_D_CONF DOK_REPORT).
  unfold LDC1101_D_CONF. lia.
Defined.

(** ** Initialisation *)

(** C4: the transfers of [ldc1101_init] are always an initial part of the
    fixed sequence ALT_CONFIG, D_CONF, LHR_RCOUNT MSB, LHR_RCOUNT LSB,
    RP_SET, the CHIP_ID read, START_CONFIG; a run that returns has issued
    the whole sequence, in this order, and nothing else. *)
Theorem init_write_order (P : platform) (d : dev P) :
  (exists k, spi_frames (events (ldc1101_init P d)) = firstn k init_frames) /\
  (outcome (ldc1101_init P d) = Done 0 ->
   spi_frames (events (ldc1101_init P d)) = init_frames).
Proof.
  init_paths; cbn [spi_frames]; (split; [| first [discriminate | reflexivity]]).
  - exists 0%nat. reflexivity.
  - exists 1%nat. reflexivity.
  - exists 2%nat. reflexivity.
  - exists 3%nat. reflexivity.
  - exists 4%nat. reflexivity.
  - exists 5%nat. reflexivity.
  - exists 6%nat. reflexivity.
  - exists 7%nat. reflexivity.
  - exists 7%nat. reflexivity.
  - exists 6%nat. reflexivity.
Qed.

Lemma init_write_order_witness :
  spi_frames (events (ldc1101_init scripted (script_ok 0xD4 1 2 3))) = init_frames.
Proof.
  apply (init_write_order scripted (script_ok 0xD4 1 2 3)). reflexivity.
Defined.

(** C3: when the identity read goes through and the byte it returns is not
    [0xD4], [ldc1101_init] logs the unexpected identity, exits with
    [EXIT_FAILURE] and no transfer to START_CONFIG is part of the run; when
    the byte is [0xD4], the identity is logged as verified and the next
    transfer is the write of 0 to START_CONFIG. *)
Theorem init_identity_check (P : platform) (d : dev P)
    (tx : list Z) (len : nat) (r : Z) (rx : list Z) :
  In (EvSpiRW tx len r rx) (events (ldc1101_init P d)) ->
  is_read_of LDC1101_CHIP_ID (EvSpiRW tx len r rx) = true ->
  r <> -1 ->
  (load rx 1 <> SPI_DEV_ID ->
   outcome (ldc1101_init P d) = Exited EXIT_FAILURE /\
   In (EvSyslog (LogUnexpectedId (load rx 1) SPI_DEV_ID))
      (events (ldc1101_init P d)) /\
   forall e, In e (events (ldc1101_init P d)) ->
             is_write_of LDC1101_START_CONFIG e = false) /\
  (load rx 1 = SPI_DEV_ID ->
   exists pre r' rx' post,
     events (ldc1101_init P d)
     = pre ++ EvSpiRW tx len r rx
           :: EvSyslog (LogIdVerified SPI_DEV_ID)
           :: EvSpiRW [LDC1101_START_CONFIG; 0] 2 r' rx' :: post).
Proof.
  init_paths; intros Hin Hread Hr'.
  all: cbn [In] in Hin; split_in Hin; try discriminate Hin.
  all: try (injection Hin as <- <- <- <-); try discriminate Hread.
  all: try contradiction.
  all: split; intros Hbyte; try contradiction.
  - rewrite Hid.
    refine (ex_intro _ [_; _; _; _; _; _; _; _] _).
    do 3 eexists. cbn [app]. reflexivity.
  - rewrite Hid.
    refine (ex_intro _ [_; _; _; _; _; _; _; _] _).
    exists r6, rx6, []. cbn [app]. reflexivity.
  - split; [reflexivity | split].
    + cbn [In]. do 9 right. left. reflexivity.
    + intros e He. cbn [In] in He. split_in He; subst e; reflexivity.
Qed.

Lemma init_identity_check_witness :
  outcome (ldc1101_init scripted (script_ok 0xD5 1 2 3)) = Exited EXIT_FAILURE /\
  exists pre r' rx' post,
    events (ldc1101_init scripted (script_ok 0xD4 1 2 3))
    = pre ++ EvSpiRW [0xBF; 0] 3 3 [0; 0xD4]
          :: EvSyslog (LogIdVerified SPI_DEV_ID)
          :: EvSpiRW [LDC1101_START_CONFIG; 0] 2 r' rx' :: post.
Proof.
  split.
  - apply (init_identity_check scripted (script_ok 0xD5 1 2 3) [0xBF; 0] 3 3 [0; 0xD5]).
    + vm_compute. do 8 right. left. reflexivity.
    + reflexivity.
    + lia.
    + vm_compute. discriminate.
  - apply (init_identity_check scripted (script_ok 0xD4 1 2 3) [0xBF; 0] 3 3 [0; 0xD4]).
    + vm_compute. do 8 right. left. reflexivity.
    + reflexivity.
    + lia.
    + reflexivity.
Defined.

(** A configuration write that fails is the last transfer of the run: the
    process logs the failure and exits. *)
Lemma init_write_failure (P : platform) (d : dev P) (e : event) :
  In e (events (ldc1101_init P d)) ->
  is_write e = true -> transfer_failed e = true ->
  outcome (ldc1101_init P d) = Exited EXIT_FAILURE /\
  exists pre reg value r rx,
    e = EvSpiRW [reg; value] 2 r rx /\
    events (ldc1101_init P d) = pre ++ [e; EvSyslog (LogWriteFailed reg)].
Proof.
  init_paths; intros Hin Hw Hf.
  all: cbn [In] in Hin; split_in Hin; subst e; try discriminate Hw.
  all: cbn [transfer_failed] in Hf; apply Z.eqb_eq in Hf; try contradiction.
  all: split; [reflexivity |].
  - refine (ex_intro _ [_; _; _] _). do 4 eexists. split; reflexivity.
  - refine (ex_intro _ [_; _; _; _] _). do 4 eexists. split; reflexivity.
  - refine (ex_intro _ [_; _; _; _; _] _). do 4 eexists. split; reflexivity.
  - refine (ex_intro _ [_; _; _; _; _; _] _). do 4 eexists. split; reflexivity.
  - refine (ex_intro _ [_; _; _; _; _; _; _] _). do 4 eexists. split; reflexivity.
  - refine (ex_intro _ [_; _; _; _; _; _; _; _; _; _] _).
    do 4 eexists. split; reflexivity.
Qed.

(** The identity read of [ldc1101_init] is given a two-byte array and the
    length argument 3. *)
Lemma init_read_frame (P : platform) (d : dev P) (tx : list Z) (len : nat) :
  In (tx, len) (spi_frames (events (ldc1101_init P d))) ->
  is_read_frame tx = true ->
  tx = [Z.lor 0x80 LDC1101_CHIP_ID; 0] /\ len = 3%nat.
Proof.
  init_paths; cbn [spi_frames]; intros Hin Hrd.
  all: cbn [In] in Hin; split_in Hin.
  all: injection Hin as <- <-; try discriminate Hrd.
  all: split; reflexivity.
Qed.

(** The first configuration write of [ldc1101_init] is issued as soon as
    the setup has gone through; when its transfer returns -1 nothing
    follows but the log line and the exit. *)
Lemma init_first_write_fails (P : platform) (d : dev P) :
  let su := p_setup P d spi_num spi_chan SPI_SPEED SPI_MODE_3 in
  let tr := p_transfer P (fst su) [LDC1101_ALT_CONFIG; LOPTIMAL] 2 in
  snd su <> -1 ->
  fst (snd tr) = -1 ->
  ldc1101_init P d
  = (Exited EXIT_FAILURE, fst tr,
     [ EvSpiSetup spi_num spi_chan SPI_SPEED SPI_MODE_3 (snd su);
       EvSyslog (LogSpiFd (snd su)); EvSyslog LogSpiInitialized;
       EvSpiRW [LDC1101_ALT_CONFIG; LOPTIMAL] 2 (-1)
         (receive [LDC1101_ALT_CONFIG; LOPTIMAL] (snd (snd tr)));
       EvSyslog (LogWriteFailed LDC1101_ALT_CONFIG) ]).
Proof.
  cbv zeta. intros Hsu Hr.
  unfold ldc1101_init.
  cbv beta iota zeta delta [bind ret exit emit syslog wiringPiSPIxSetupMode].
  destruct (p_setup P d spi_num spi_chan SPI_SPEED SPI_MODE_3) as [d1 fd].
  cbn [fst snd] in *.
  rewrite (proj2 (Z.eqb_neq fd (-1)) Hsu). cbv beta iota.
  rewrite (set_reg_run P LDC1101_ALT_CONFIG LOPTIMAL d1). cbv zeta.
  rewrite Hr. change (-1 =? -1) with true. cbv beta iota. reflexivity.
Qed.

Ltac neq_false :=
  repeat match goal with
         | H : ?r <> -1 |- _ =>
             match goal with
             | H' : context [r =? -1] |- _ =>
                 rewrite (proj2 (Z.eqb_neq r (-1)) H) in H'
             end
         end.

(** A run of [ldc1101_init] in which neither the setup nor one of the five
    configuration writes failed gets to the identity read. *)
Lemma init_reaches_identity (P : platform) (d : dev P) :
  existsb setup_failed (events (ldc1101_init P d)) = false ->
  existsb config_write_failed (events (ldc1101_init P d)) = false ->
  exists pre r rx post,
    events (ldc1101_init P d) = pre ++ EvSpiRW [0xBF; 0] 3 r rx :: post /\
    spi_frames pre = firstn 5 init_frames.
Proof.
  init_paths; intros Hs Hw.
  all: unfold config_write_failed in Hw;
    cbn [existsb setup_failed is_write is_write_of transfer_failed] in Hs, Hw.
  all: subst; neq_false.
  all: try (cbn in Hs; discriminate Hs).
  all: try (cbn in Hw; discriminate Hw).
  all: refine (ex_intro _ [_; _; _; _; _; _; _; _] _); do 3 eexists;
    (split; [cbn [app]; reflexivity | reflexivity]).
Qed.

(** ** The busy-poll *)

Lemma status_read_frame :
  store [LDC1101_LHR_STATUS; 0] 0 (u8 (Z.lor (Z.shiftl 1 7) LDC1101_LHR_STATUS))
  = [0xBB; 0].
Proof. reflexivity. Qed.

Lemma drdy_bit (x : Z) :
  u8 (Z.land x LDC1101_LHR_DRDY) = Z.land x LDC1101_LHR_DRDY.
Proof.
  change LDC1101_LHR_DRDY with (Z.ones 1).
  rewrite Z.land_ones by lia. apply u8_small.
  pose proof (Z.mod_pos_bound x (2 ^ 1) ltac:(reflexivity)) as H.
  change (2 ^ 1) with 2 in *. lia.
Qed.

(** One turn of the loop: a status transfer, a log line when it returned
    -1, then the test of bit 0 of [data[1]]; the loop goes on when the bit
    is set. *)
Lemma poll_unfold (P : platform) (fuel : nat) (d : dev P) :
  exists d' r resp,
    let rx := receive [0xBB; 0] resp in
    let turn :=
      EvSpiRW [0xBB; 0] 3 r rx
      :: (if r =? -1 then [EvSyslog (LogReadFailed LDC1101_LHR_STATUS)] else []) in
    poll P (S fuel) d
    = if Z.land (load rx 1) LDC1101_LHR_DRDY =? 0
      then (Done tt, d', turn)
      else (outcome (poll P fuel d'), final (poll P fuel d'),
            turn ++ events (poll P fuel d')).
Proof.
  cbn [poll]. unfold bind at 1.
  destruct (read_reg_cases P LDC1101_LHR_STATUS [LDC1101_LHR_STATUS; 0] 2 d)
    as (d' & r & resp & [[Hr E] | [Hr E]]);
    cbv zeta in E; rewrite status_read_frame in E; rewrite E; clear E;
    exists d', r, resp; cbv zeta; cbn [fst snd];
    rewrite drdy_bit;
    destruct (Z.land (load (receive [0xBB; 0] resp) 1) LDC1101_LHR_DRDY =? 0);
    cbn [negb];
    try (destruct (poll P fuel d') as [[res d''] evs]; cbn [outcome final events fst snd]);
    unfold ret; subst r || (apply Z.eqb_neq in Hr; rewrite Hr);
    reflexivity.
Qed.

Lemma spi_frames_app (e1 e2 : list event) :
  spi_frames (e1 ++ e2) = spi_frames e1 ++ spi_frames e2.
Proof.
  induction e1 as [| e tl IH]; [reflexivity |].
  destruct e; cbn [app spi_frames]; rewrite IH; reflexivity.
Qed.

Lemma status_bits_app (e1 e2 : list event) :
  status_bits (e1 ++ e2) = status_bits e1 ++ status_bits e2.
Proof.
  induction e1 as [| e tl IH]; [reflexivity |].
  destruct e; cbn [app status_bits]; rewrite IH; reflexivity.
Qed.

Lemma track_app (last : option event) (e1 e2 : list event) :
  track last (e1 ++ e2) = track (track last e1) e2.
Proof.
  revert last. induction e1 as [| e tl IH]; intros last; [reflexivity |].
  cbn [app track]. apply IH.
Qed.

Lemma decodes_after_app (ok : event -> bool) (last : option event)
    (e1 e2 : list event) :
  decodes_after ok last (e1 ++ e2)
  = decodes_after ok last e1 && decodes_after ok (track last e1) e2.
Proof.
  revert last. induction e1 as [| e tl IH]; intros last; [reflexivity |].
  cbn [app decodes_after track]. rewrite IH. apply andb_assoc.
Qed.

(** The busy-poll never exits the process.  When it returns it has made
    [k + 1] status reads for some [k] below the fuel: the program saw bit 0
    set in the first [k] and clear in the last.  When the fuel runs out every
    one of the reads showed the bit set. *)
Lemma poll_run (P : platform) (fuel : nat) (d : dev P) :
  Forall poll_event (events (poll P fuel d)) /\
  match outcome (poll P fuel d) with
  | Done _ =>
      exists k, (k < fuel)%nat /\
        spi_frames (events (poll P fuel d)) = repeat status_frame (S k) /\
        status_bits (events (poll P fuel d)) = repeat false k ++ [true]
  | Spinning =>
      spi_frames (events (poll P fuel d)) = repeat status_frame fuel /\
      status_bits (events (poll P fuel d)) = repeat false fuel
  | Exited _ => False
  end.
Proof.
  revert d. induction fuel as [| fuel IH]; intros d.
  - cbn. split; [constructor | split; reflexivity].
  - destruct (poll_unfold P fuel d) as (d' & r & resp & E).
    cbv zeta in E. rewrite E. clear E.
    set (rx := receive [0xBB; 0] resp).
    assert (Hturn : Forall poll_event
              (EvSpiRW [0xBB; 0] 3 r rx
               :: (if r =? -1
                   then [EvSyslog (LogReadFailed LDC1101_LHR_STATUS)] else []))).
    { constructor; [left; exists r, rx; reflexivity |].
      destruct (r =? -1); [constructor; [right; reflexivity | constructor]
                          | constructor]. }
    destruct (Z.land (load rx 1) LDC1101_LHR_DRDY =? 0) eqn:T;
      cbn [outcome events final fst snd].
    + split; [exact Hturn |].
      exists 0%nat. split; [lia |].
      destruct (r =? -1); cbn [spi_frames status_bits seen_clear repeat app];
        rewrite T; split; reflexivity.
    + destruct (IH d') as [Hall Hres].
      split; [apply Forall_app; split; assumption |].
      rewrite spi_frames_app, status_bits_app.
      assert (Hf : spi_frames
                (EvSpiRW [0xBB; 0] 3 r rx
                 :: (if r =? -1
                     then [EvSyslog (LogReadFailed LDC1101_LHR_STATUS)] else []))
              = [status_frame]) by (destruct (r =? -1); reflexivity).
      assert (Hb : status_bits
                (EvSpiRW [0xBB; 0] 3 r rx
                 :: (if r =? -1
                     then [EvSyslog (LogReadFailed LDC1101_LHR_STATUS)] else []))
              = [false])
        by (destruct (r =? -1); cbn [status_bits seen_clear]; rewrite T; reflexivity).
      rewrite Hf, Hb.
      destruct (outcome (poll P fuel d')) as [u | s |].
      * destruct Hres as (k & Hk & Hfr & Hbits).
        exists (S k). split; [lia |]. rewrite Hfr, Hbits. split; reflexivity.
      * exact Hres.
      * destruct Hres as [Hfr Hbits]. rewrite Hfr, Hbits. split; reflexivity.
Qed.

(** No sample is decoded inside the busy-poll, and when it returns the most
    recent status read is one in which the program saw bit 0 clear. *)
Lemma poll_track (P : platform) (fuel : nat) (d : dev P)
    (ok : event -> bool) (last : option event) :
  decodes_after ok last (events (poll P fuel d)) = true /\
  (forall u, outcome (poll P fuel d) = Done u ->
     exists s, track last (events (poll P fuel d)) = Some s /\
               is_read_of LDC1101_LHR_STATUS s = true /\
               seen_clear s = true).
Proof.
  revert d last. induction fuel as [| fuel IH]; intros d last.
  - cbn. split; [reflexivity | discriminate].
  - destruct (poll_unfold P fuel d) as (d' & r & resp & E).
    cbv zeta in E. rewrite E. clear E.
    set (rx := receive [0xBB; 0] resp).
    destruct (Z.land (load rx 1) LDC1101_LHR_DRDY =? 0) eqn:T;
      cbn [outcome events final fst snd].
    + split.
      * destruct (r =? -1); reflexivity.
      * intros u _. exists (EvSpiRW [0xBB; 0] 3 r rx).
        split; [destruct (r =? -1); reflexivity |].
        split; [reflexivity | exact T].
    + rewrite decodes_after_app, track_app.
      destruct (IH d' (track last
                  (EvSpiRW [0xBB; 0] 3 r rx
                   :: (if r =? -1
                       then [EvSyslog (LogReadFailed LDC1101_LHR_STATUS)]
                       else [])))) as [Hdec Htrack].
      split.
      * rewrite Hdec. destruct (r =? -1); reflexivity.
      * exact Htrack.
Qed.

(** ** One pass of the sample loop *)

Lemma sample_read_frame :
  store [0; 0; 0; 0] 0 (u8 (Z.lor (Z.shiftl 1 7) LDC1101_LHR_DATA_LSB))
  = [0xB8; 0; 0; 0].
Proof. reflexivity. Qed.

(** Every path through the body of the loop.  Either the busy-poll is still
    spinning; or it returned and one transfer follows, on the four-byte
    array [0xB8 0 0 0] with length argument 5.  If that transfer returns -1
    two lines are logged and the pass ends; otherwise the clock is read,
    the value is decoded from the array and the row is written, and a failed
    write of the row makes [main] return -1. *)
Lemma main_sample_cases (P : platform) (fuel : nat) (t : timespec) (d : dev P) :
  (outcome (poll P fuel d) = Spinning /\
   main_sample P fuel t d
   = (Spinning, final (poll P fuel d), events (poll P fuel d)))
  \/
  (outcome (poll P fuel d) = Done tt /\
   exists d2 r resp,
     let rx := receive [0xB8; 0; 0; 0] resp in
     let rd := EvSpiRW [0xB8; 0; 0; 0] 5 r rx in
     (r = -1 /\
      main_sample P fuel t d
      = (Done None, d2,
         events (poll P fuel d)
         ++ [rd; EvSyslog (LogReadFailed LDC1101_LHR_DATA_LSB);
             EvSyslog LogValueFailed]))
     \/
     (r <> -1 /\
      exists now wr d4,
        let row := EvRow (get_elapsed_time (long_bits P) t now)
                         (decode_value rx) wr in
        (wr = -1 /\
         main_sample P fuel t d
         = (Done (Some (-1)), d4,
            events (poll P fuel d)
            ++ [rd; EvClock now; row; EvSyslog LogFileWriteFailed;
                EvStderr LogFileWriteFailed; EvClose]))
        \/
        (wr <> -1 /\
         main_sample P fuel t d
         = (Done None, d4, events (poll P fuel d) ++ [rd; EvClock now; row])))).
Proof.
  pose proof (poll_run P fuel d) as [_ Hres].
  remember (main_sample P fuel t d) as run eqn:Erun.
  unfold main_sample in Erun. unfold bind at 1 in Erun.
  destruct (poll P fuel d) as [[res d1] e1].
  cbn [outcome final events fst snd] in *.
  destruct res as [[] | s |]; [| contradiction | left; split; [reflexivity | exact Erun]].
  right. split; [reflexivity |].
  cbv beta iota in Erun. unfold bind at 1 in Erun.
  destruct (read_reg_cases P LDC1101_LHR_DATA_LSB [0; 0; 0; 0] 4 d1)
    as (d2 & r & resp & [[Hr E] | [Hr E]]);
    cbv zeta in E; rewrite sample_read_frame in E; rewrite E in Erun; clear E;
    cbn [fst snd] in Erun.
  - exists d2, r, resp. cbv zeta. left. split; [exact Hr |].
    change (-1 =? -1) with true in Erun. cbv beta iota in Erun.
    unfold bind, syslog, emit, ret in Erun. cbn [app] in Erun. exact Erun.
  - change (0 =? -1) with false in Erun. cbv beta iota in Erun.
    unfold bind at 1 in Erun. unfold clock_gettime in Erun.
    destruct (p_clock P d2) as [d3 now].
    unfold bind at 1 in Erun. unfold write_row in Erun.
    destruct (p_write P d3
                (get_elapsed_time (long_bits P) t now)
                (decode_value (receive [0xB8; 0; 0; 0] resp))) as [d4 wr].
    exists d4, r, resp. cbv zeta. right. split; [exact Hr |].
    exists now, wr, d4.
    destruct (Z.eqb_spec wr (-1)) as [Hw | Hw]; [left | right];
      (split; [exact Hw |]);
      unfold bind, syslog, emit, ret in Erun; cbn [app] in Erun; exact Erun.
Qed.

(** One pass of the loop, from what the platform answers: the busy-poll
    has returned, the sample transfer is issued on the array [0xB8 0 0 0]
    with length argument 5, and what follows depends on what it returns and
    on what the write of the row returns. *)
Lemma main_sample_run (P : platform) (fuel : nat) (t : timespec) (d : dev P) :
  outcome (poll P fuel d) = Done tt ->
  let tr := p_transfer P (final (poll P fuel d)) [0xB8; 0; 0; 0] 5 in
  let r := fst (snd tr) in
  let rx := receive [0xB8; 0; 0; 0] (snd (snd tr)) in
  let rd := EvSpiRW [0xB8; 0; 0; 0] 5 r rx in
  main_sample P fuel t d
  = if r =? -1 then
      (Done None, fst tr,
       events (poll P fuel d)
       ++ [rd; EvSyslog (LogReadFailed LDC1101_LHR_DATA_LSB); EvSyslog LogValueFailed])
    else
      let ck := p_clock P (fst tr) in
      let el := get_elapsed_time (long_bits P) t (snd ck) in
      let w := p_write P (fst ck) el (decode_value rx) in
      let row := EvRow el (decode_value rx) (snd w) in
      if snd w =? -1 then
        (Done (Some (-1)), fst w,
         events (poll P fuel d)
         ++ [rd; EvClock (snd ck); row; EvSyslog LogFileWriteFailed;
             EvStderr LogFileWriteFailed; EvClose])
      else
        (Done None, fst w, events (poll P fuel d) ++ [rd; EvClock (snd ck); row]).
Proof.
  intros Hout. cbv zeta.
  remember (main_sample P fuel t d) as run eqn:Erun.
  unfold main_sample in Erun. unfold bind at 1 in Erun.
  destruct (poll P fuel d) as [[res d1] e1].
  cbn [outcome final events fst snd] in *. subst res.
  cbv beta iota in Erun. unfold bind at 1 in Erun.
  unfold ldc1101_read_reg in Erun. rewrite sample_read_frame in Erun.
  change (4 + 1)%nat with 5%nat in Erun.
  unfold bind at 1 in Erun. unfold wiringPiSPIxDataRW in Erun.
  destruct (p_transfer P d1 [0xB8; 0; 0; 0] 5) as [d2 [r resp]].
  cbn [fst snd] in *.
  destruct (r =? -1).
  - unfold bind, syslog, emit, ret in Erun. cbn [app fst snd] in Erun.
    change (-1 =? -1) with true in Erun. cbv beta iota in Erun.
    cbn [app] in Erun. exact Erun.
  - unfold ret at 1 in Erun. cbn [app fst snd] in Erun.
    change (0 =? -1) with false in Erun. cbv beta iota in Erun.
    unfold bind at 1 in Erun. unfold clock_gettime in Erun.
    destruct (p_clock P d2) as [d3 now]. cbn [fst snd].
    unfold bind at 1 in Erun. unfold write_row in Erun.
    destruct (p_write P d3 (get_elapsed_time (long_bits P) t now)
                (decode_value (receive [0xB8; 0; 0; 0] resp))) as [d4 wr].
    cbn [fst snd].
    destruct (wr =? -1);
      unfold bind, syslog, emit, ret in Erun; cbn [app] in Erun; exact Erun.
Qed.

(** The value decoded from the array of the sample read is below [2^24]. *)
Lemma sample_value_range (resp : list Z) :
  0 <= decode_value (receive [0xB8; 0; 0; 0] resp) < 2 ^ 24.
Proof.
  pose proof (receive_length [0xB8; 0; 0; 0] resp) as Hlen.
  assert (Hbytes : Forall (fun b => 0 <= b < 256) (receive [0xB8; 0; 0; 0] resp)).
  { apply receive_bytes. repeat constructor; lia. }
  destruct (receive [0xB8; 0; 0; 0] resp) as [| a [| b0 [| b1 [| b2 [| ? ?]]]]];
    try discriminate Hlen.
  inversion Hbytes as [| ? ? _ Hb]; subst.
  inversion Hb as [| ? ? H0 Hb']; subst.
  inversion Hb' as [| ? ? H1 Hb'']; subst.
  inversion Hb'' as [| ? ? H2 _]; subst.
  rewrite decode_value_sum by assumption.
  change (2 ^ 24) with 16777216. lia.
Qed.

Lemma poll_event_not_sample (e : event) :
  poll_event e ->
  is_read_of LDC1101_LHR_DATA_LSB e = false /\ is_decode e = false /\
  (forall tx len r rx, e = EvSpiRW tx len r rx -> (tx, len) = status_frame).
Proof.
  intros [(r & rx & ->) | ->]; repeat split; try reflexivity.
  - intros tx len r' rx' E. injection E as <- <- _ _. reflexivity.
  - intros tx len r' rx' E. discriminate E.
Qed.

(** The transfers of one pass: status reads, each on a two-byte array with
    length argument 3, then, unless the poll is still spinning, one sample
    read on a four-byte array with length argument 5. *)
Lemma main_sample_frames (P : platform) (fuel : nat) (t : timespec) (d : dev P) :
  (outcome (main_sample P fuel t d) = Spinning /\
   spi_frames (events (main_sample P fuel t d)) = repeat status_frame fuel)
  \/
  (exists k, (k < fuel)%nat /\
     spi_frames (events (main_sample P fuel t d))
     = repeat status_frame (S k) ++ [sample_frame]).
Proof.
  pose proof (poll_run P fuel d) as [_ Hres].
  destruct (main_sample_cases P fuel t d)
    as [[Hout E] | [Hout (d2 & r & resp & H)]]; rewrite Hout in Hres.
  - left. rewrite E. cbn [outcome events fst snd]. split; [reflexivity |].
    apply Hres.
  - right. destruct Hres as (k & Hk & Hfr & _). exists k. split; [exact Hk |].
    cbv zeta in H.
    destruct H as [[_ E] | [_ (now & wr & d4 & [[_ E] | [_ E]])]];
      rewrite E; cbn [events snd]; rewrite spi_frames_app, Hfr; reflexivity.
Qed.

(** The row of a pass carries the value decoded from the array the sample
    transfer left behind, and that array has four cells, all bytes. *)
Lemma main_sample_row (P : platform) (fuel : nat) (t : timespec) (d : dev P)
    (el : timespec) (v wr : Z) :
  In (EvRow el v wr) (events (main_sample P fuel t d)) ->
  exists pre r rx now post,
    events (main_sample P fuel t d)
    = pre ++ EvSpiRW [0xB8; 0; 0; 0] 5 r rx :: EvClock now
          :: EvRow el v wr :: post /\
    r <> -1 /\
    length rx = 4%nat /\ Forall (fun b => 0 <= b < 256) rx /\
    v = decode_value rx /\ 0 <= v < 2 ^ 24.
Proof.
  intros Hin.
  pose proof (poll_run P fuel d) as [Hall _].
  assert (Hno : ~ In (EvRow el v wr) (events (poll P fuel d))).
  { intros Hp. rewrite Forall_forall in Hall.
    destruct (poll_event_not_sample _ (Hall _ Hp)) as (_ & Hd & _).
    discriminate Hd. }
  destruct (main_sample_cases P fuel t d)
    as [[Hout E] | [Hout (d2 & r & resp & H)]].
  - rewrite E in Hin. cbn [events snd] in Hin. contradiction.
  - cbv zeta in H.
    assert (Hrx : length (receive [0xB8; 0; 0; 0] resp) = 4%nat /\
                  Forall (fun b => 0 <= b < 256) (receive [0xB8; 0; 0; 0] resp)).
    { split; [apply receive_length |].
      apply receive_bytes. repeat constructor; lia. }
    destruct Hrx as [Hlen Hbytes].
    assert (Hval : 0 <= decode_value (receive [0xB8; 0; 0; 0] resp) < 2 ^ 24).
    { destruct (receive [0xB8; 0; 0; 0] resp) as [| a [| b0 [| b1 [| b2 [| ? ?]]]]];
        try discriminate Hlen.
      inversion Hbytes as [| ? ? _ Hb]; subst.
      inversion Hb as [| ? ? H0 Hb']; subst.
      inversion Hb' as [| ? ? H1 Hb'']; subst.
      inversion Hb'' as [| ? ? H2 _]; subst.
      rewrite decode_value_sum by assumption.
      change (2 ^ 24) with 16777216. lia. }
    destruct H as [[_ E] | [Hr (now & wr' & d4 & [[_ E] | [_ E]])]];
      rewrite E in *; cbn [events snd] in *;
      apply in_app_or in Hin; destruct Hin as [Hin | Hin];
      try contradiction; cbn [In] in Hin; split_in Hin; try discriminate Hin;
      injection Hin as <- <- <-;
      exists (events (poll P fuel d)), r, (receive [0xB8; 0; 0; 0] resp), now;
      eexists; (split; [reflexivity |]); repeat split; try assumption; apply Hval.
Qed.

(** ** The length of a read *)

(** C2: [ldc1101_read_reg] hands the transport the caller's array with the
    length argument [length + 1], so when [length] is the size of the array
    the last index of the transfer is outside it and checked indexing gives
    [None].  Both call sites are reached and do so.  A run of
    [ldc1101_init] in which the setup and the five configuration writes went
    through issues, as its sixth transfer, the identity read on the two-cell
    array [0xBF 0] with length argument 3.  A pass of the loop of [main]
    whose busy-poll has returned issues, right after the status reads, the
    sample read on the four-cell array [0xB8 0 0 0] with length argument 5.
    No other read frame occurs in [ldc1101_init], and no other frame that
    addresses LHR_DATA_LSB in a pass. *)
Theorem read_reg_overrun (P : platform) :
  (forall reg data n d,
     exists tx r rx rest,
       events (ldc1101_read_reg P reg data n d)
       = EvSpiRW tx (n + 1) r rx :: rest /\
       length tx = length data /\
       (n = length data ->
        checked_load tx n = None /\ checked_frame tx (n + 1) = None)) /\
  (forall d,
     existsb setup_failed (events (ldc1101_init P d)) = false ->
     existsb config_write_failed (events (ldc1101_init P d)) = false ->
     firstn 6 (spi_frames (events (ldc1101_init P d)))
     = firstn 5 init_frames ++ [([0xBF; 0], 3%nat)] /\
     checked_load [0xBF; 0] 2 = None /\ checked_frame [0xBF; 0] 3 = None) /\
  (forall fuel t d,
     outcome (poll P fuel d) = Done tt ->
     spi_frames (events (main_sample P fuel t d))
     = spi_frames (events (poll P fuel d)) ++ [([0xB8; 0; 0; 0], 5%nat)] /\
     checked_load [0xB8; 0; 0; 0] 4 = None /\
     checked_frame [0xB8; 0; 0; 0] 5 = None) /\
  (forall d tx len,
     In (tx, len) (spi_frames (events (ldc1101_init P d))) ->
     is_read_frame tx = true ->
     length tx = 2%nat /\ len = 3%nat /\
     checked_load tx 2 = None /\ checked_frame tx len = None) /\
  (forall fuel t d tx len,
     In (tx, len) (spi_frames (events (main_sample P fuel t d))) ->
     load tx 0 = Z.lor 0x80 LDC1101_LHR_DATA_LSB ->
     length tx = 4%nat /\ len = 5%nat /\
     checked_load tx 4 = None /\ checked_frame tx len = None).
Proof.
  split; [| split; [| split; [| split]]].
  - intros reg data n d.
    destruct (read_reg_cases P reg data n d) as (d' & r & resp & [[_ E] | [_ E]]);
      cbv zeta in E; rewrite E; cbn [events snd];
      (do 4 eexists; split; [reflexivity |]);
      (split; [apply store_length |]);
      intros ->; rewrite <- (store_length data 0 (u8 (Z.lor (Z.shiftl 1 7) reg)));
      (split; [apply nth_error_None; lia
              | unfold checked_frame; apply checked_span_past; lia]).
  - intros d Hs Hw.
    destruct (init_reaches_identity P d Hs Hw) as (pre & r & rx & post & E & Hpre).
    split; [| split; reflexivity].
    rewrite E, spi_frames_app, Hpre. reflexivity.
  - intros fuel t d Hout. split; [| split; reflexivity].
    rewrite (main_sample_run P fuel t d Hout). cbv zeta.
    destruct (_ =? -1); [| destruct (_ =? -1)];
      cbn [events snd]; rewrite spi_frames_app; reflexivity.
  - intros d tx len Hin Hrd.
    destruct (init_read_frame P d tx len Hin Hrd) as [-> ->].
    repeat split; reflexivity.
  - intros fuel t d tx len Hin Hb.
    assert (Hst : (tx, len) <> status_frame).
    { intros E. injection E as -> ->. discriminate Hb. }
    destruct (main_sample_frames P fuel t d) as [[_ E] | (k & _ & E)];
      rewrite E in Hin.
    + apply repeat_spec in Hin. contradiction.
    + apply in_app_or in Hin. destruct Hin as [Hin | Hin].
      * apply repeat_spec in Hin. contradiction.
      * cbn [In] in Hin. split_in Hin. injection Hin as <- <-.
        repeat split; reflexivity.
Qed.

Lemma read_reg_overrun_witness :
  (firstn 6 (spi_frames (events (ldc1101_init scripted (script_ok 0xD4 1 2 3))))
   = [ ([0x05; 0x01], 2%nat); ([0x0C; 0x01], 2%nat); ([0x31; 0xFF], 2%nat);
       ([0x30; 0xFF], 2%nat); ([0x01; 0x07], 2%nat); ([0xBF; 0], 3%nat) ] /\
   checked_load [0xBF; 0] 2 = None /\ checked_frame [0xBF; 0] 3 = None) /\
  (spi_frames (events (main_sample scripted 1 t0 script_sample))
   = [ ([0xBB; 0], 3%nat); ([0xB8; 0; 0; 0], 5%nat) ] /\
   checked_load [0xB8; 0; 0; 0] 4 = None /\
   checked_frame [0xB8; 0; 0; 0] 5 = None).
Proof.
  split.
  - exact (proj1 (proj2 (read_reg_overrun scripted))
             (script_ok 0xD4 1 2 3) eq_refl eq_refl).
  - exact (proj1 (proj2 (proj2 (read_reg_overrun scripted)))
             1%nat t0 script_sample eq_refl).
Defined.

(** C5, on the code: with the device ready at once, the sample read is one
    transfer on the array [0xB8 0 0 0] with length argument 5.  Four bytes
    follow the address byte, not three: the fifth byte of the transfer has
    no cell in the array, and the value is decoded from cells 1 to 3. *)
Theorem sample_read_is_five_bytes :
  events (main_sample scripted 1 t0 script_sample)
  = [ EvSpiRW [0xBB; 0] 3 3 [0; 0];
      EvSpiRW [0xB8; 0; 0; 0] 5 5 [0; 1; 2; 3];
      EvClock {| tv_sec := 2; tv_nsec := 500 |};
      EvRow {| tv_sec := 0; tv_nsec := 999999600 |} 0x030201 12 ] /\
  spi_frames (events (main_sample scripted 1 t0 script_sample))
  = [status_frame; sample_frame] /\
  snd sample_frame = (1 + 4)%nat /\
  checked_frame (fst sample_frame) (1 + 3) = Some [0xB8; 0; 0; 0] /\
  checked_frame (fst sample_frame) (snd sample_frame) = None.
Proof. repeat split; reflexivity. Qed.

(** ** Transport errors *)

(** The loop over the samples: a pass that ends without a return from
    [main] is followed by the remaining passes, from the state it left. *)
Lemma main_samples_step (P : platform) (fuel : nat) (t : timespec) (n : nat)
    (d : dev P) :
  main_samples P fuel t (S n) d
  = match outcome (main_sample P fuel t d) with
    | Done None =>
        (outcome (main_samples P fuel t n (final (main_sample P fuel t d))),
         final (main_samples P fuel t n (final (main_sample P fuel t d))),
         events (main_sample P fuel t d)
         ++ events (main_samples P fuel t n (final (main_sample P fuel t d))))
    | Done (Some v) =>
        (Done (Some v), final (main_sample P fuel t d),
         events (main_sample P fuel t d) ++ [])
    | Exited s =>
        (Exited s, final (main_sample P fuel t d), events (main_sample P fuel t d))
    | Spinning =>
        (Spinning, final (main_sample P fuel t d), events (main_sample P fuel t d))
    end.
Proof.
  cbn [main_samples]. unfold bind.
  destruct (main_sample P fuel t d) as [[r d'] e].
  cbn [outcome final events fst snd].
  destruct r as [[v |] | s |]; try reflexivity.
  destruct (main_samples P fuel t n d') as [[r2 d2] e2]. reflexivity.
Qed.

(** C8: a configuration write whose transfer returns -1 ends the process:
    [ldc1101_set_reg] issues the one transfer, logs the failure and exits
    with [EXIT_FAILURE]; the write is not tried again.  So it is in
    [ldc1101_init]: when the first write fails nothing follows but the log
    line, and a write that fails at any position is the last transfer of
    the run.  A sample read is issued once the busy-poll has returned; when
    its transfer returns -1 the failure is logged twice, the pass ends
    without a return from [main], and the loop goes on with the next sample
    from the state the failed transfer left. *)
Theorem transport_error_asymmetry (P : platform) :
  (forall reg value d,
     fst (snd (p_transfer P d [reg; value] 2)) = -1 ->
     ldc1101_set_reg P reg value d
     = (Exited EXIT_FAILURE, fst (p_transfer P d [reg; value] 2),
        [ EvSpiRW [reg; value] 2 (-1)
            (receive [reg; value] (snd (snd (p_transfer P d [reg; value] 2))));
          EvSyslog (LogWriteFailed reg) ])) /\
  (forall d,
     snd (p_setup P d spi_num spi_chan SPI_SPEED SPI_MODE_3) <> -1 ->
     fst (snd (p_transfer P
                 (fst (p_setup P d spi_num spi_chan SPI_SPEED SPI_MODE_3))
                 [LDC1101_ALT_CONFIG; LOPTIMAL] 2)) = -1 ->
     outcome (ldc1101_init P d) = Exited EXIT_FAILURE /\
     exists fd rx,
       events (ldc1101_init P d)
       = [ EvSpiSetup spi_num spi_chan SPI_SPEED SPI_MODE_3 fd;
           EvSyslog (LogSpiFd fd); EvSyslog LogSpiInitialized;
           EvSpiRW [LDC1101_ALT_CONFIG; LOPTIMAL] 2 (-1) rx;
           EvSyslog (LogWriteFailed LDC1101_ALT_CONFIG) ]) /\
  (forall d e,
     In e (events (ldc1101_init P d)) ->
     is_write e = true -> transfer_failed e = true ->
     outcome (ldc1101_init P d) = Exited EXIT_FAILURE /\
     exists pre reg value r rx,
       e = EvSpiRW [reg; value] 2 r rx /\
       events (ldc1101_init P d) = pre ++ [e; EvSyslog (LogWriteFailed reg)]) /\
  (forall fuel t d,
     outcome (poll P fuel d) = Done tt ->
     fst (snd (p_transfer P (final (poll P fuel d)) [0xB8; 0; 0; 0] 5)) = -1 ->
     let d2 := fst (p_transfer P (final (poll P fuel d)) [0xB8; 0; 0; 0] 5) in
     let rx := receive [0xB8; 0; 0; 0]
                 (snd (snd (p_transfer P (final (poll P fuel d))
                              [0xB8; 0; 0; 0] 5))) in
     main_sample P fuel t d
     = (Done None, d2,
        events (poll P fuel d)
        ++ [ EvSpiRW [0xB8; 0; 0; 0] 5 (-1) rx;
             EvSyslog (LogReadFailed LDC1101_LHR_DATA_LSB);
             EvSyslog LogValueFailed ]) /\
     forall n,
       main_samples P fuel t (S n) d
       = (outcome (main_samples P fuel t n d2),
          final (main_samples P fuel t n d2),
          events (main_sample P fuel t d)
          ++ events (main_samples P fuel t n d2))).
Proof.
  split; [| split; [| split]].
  - intros reg value d Hr. rewrite set_reg_run. cbv zeta.
    rewrite Hr. reflexivity.
  - intros d Hsu Hr.
    rewrite (init_first_write_fails P d Hsu Hr). cbn [outcome events fst snd].
    split; [reflexivity |]. do 2 eexists. reflexivity.
  - intros d e Hin Hw Hf. exact (init_write_failure P d e Hin Hw Hf).
  - intros fuel t d Hout Hr. cbv zeta.
    assert (E : main_sample P fuel t d
                = (Done None,
                   fst (p_transfer P (final (poll P fuel d)) [0xB8; 0; 0; 0] 5),
                   events (poll P fuel d)
                   ++ [ EvSpiRW [0xB8; 0; 0; 0] 5 (-1)
                          (receive [0xB8; 0; 0; 0]
                             (snd (snd (p_transfer P (final (poll P fuel d))
                                          [0xB8; 0; 0; 0] 5))));
                        EvSyslog (LogReadFailed LDC1101_LHR_DATA_LSB);
                        EvSyslog LogValueFailed ])).
    { rewrite (main_sample_run P fuel t d Hout). cbv zeta.
      rewrite Hr. reflexivity. }
    split; [exact E |].
    intros n. rewrite main_samples_step. rewrite E.
    cbn [outcome final events fst snd]. reflexivity.
Qed.

Lemma transport_error_asymmetry_witness :
  ldc1101_set_reg scripted LDC1101_D_CONF DOK_REPORT [(-1, [])]
  = (Exited EXIT_FAILURE, [],
     [ EvSpiRW [0x0C; 0x01] 2 (-1) [0x0C; 0x01];
       EvSyslog (LogWriteFailed 0x0C) ]) /\
  (outcome (ldc1101_init scripted [(-1, [])]) = Exited EXIT_FAILURE /\
   exists fd rx,
     events (ldc1101_init scripted [(-1, [])])
     = [ EvSpiSetup 0 0 1000000 3 fd; EvSyslog (LogSpiFd fd);
         EvSyslog LogSpiInitialized;
         EvSpiRW [0x05; 0x01] 2 (-1) rx; EvSyslog (LogWriteFailed 0x05) ]) /\
  (outcome (ldc1101_init scripted script_write_fails) = Exited EXIT_FAILURE /\
   events (ldc1101_init scripted script_write_fails)
   = [ EvSpiSetup 0 0 1000000 3 3; EvSyslog (LogSpiFd 3);
       EvSyslog LogSpiInitialized;
       EvSpiRW [0x05; 0x01] 2 2 [0; 0];
       EvSpiRW [0x0C; 0x01] 2 (-1) [0x0C; 0x01];
       EvSyslog (LogWriteFailed 0x0C) ]) /\
  main_sample scripted 1 t0 script_sample_fails
  = (Done None, [(3, [0; 0; 0]); (5, [0; 0; 0; 1; 0])],
     [ EvSpiRW [0xBB; 0] 3 3 [0; 0];
       EvSpiRW [0xB8; 0; 0; 0] 5 (-1) [0xB8; 0; 0; 0];
       EvSyslog (LogReadFailed 0x38); EvSyslog LogValueFailed ]) /\
  main_samples scripted 1 t0 2 script_sample_fails
  = (Done None, [],
     [ EvSpiRW [0xBB; 0] 3 3 [0; 0];
       EvSpiRW [0xB8; 0; 0; 0] 5 (-1) [0xB8; 0; 0; 0];
       EvSyslog (LogReadFailed 0x38); EvSyslog LogValueFailed;
       EvSpiRW [0xBB; 0] 3 3 [0; 0];
       EvSpiRW [0xB8; 0; 0; 0] 5 5 [0; 0; 0; 1];
       EvClock {| tv_sec := 2; tv_nsec := 500 |};
       EvRow {| tv_sec := 0; tv_nsec := 999999600 |} 65536 12 ]).
Proof.
  split; [| split; [| split; [| split]]].
  - exact (proj1 (transport_error_asymmetry scripted)
             LDC1101_D_CONF DOK_REPORT [(-1, [])] eq_refl).
  - exact (proj1 (proj2 (transport_error_asymmetry scripted)) [(-1, [])]
             ltac:(vm_compute; discriminate) eq_refl).
  - split; [| reflexivity].
    apply (proj1 (proj2 (proj2 (transport_error_asymmetry scripted)))
             script_write_fails
             (EvSpiRW [LDC1101_D_CONF; DOK_REPORT] 2 (-1) [LDC1101_D_CONF; DOK_REPORT])).
    + vm_compute. do 4 right. left. reflexivity.
    + reflexivity.
    + reflexivity.
  - exact (proj1 (proj2 (proj2 (proj2 (transport_error_asymmetry scripted)))
                    1%nat t0 script_sample_fails eq_refl eq_refl)).
  - rewrite (proj2 (proj2 (proj2 (proj2 (transport_error_asymmetry scripted)))
                      1%nat t0 script_sample_fails eq_refl eq_refl) 1%nat).
    reflexivity.
Defined.

(** ** Ready before decode *)

(** In the program's own view the invariant holds: whenever a sample is
    decoded, the byte [data[1]] tested after the most recent status transfer
    had bit 0 clear. *)
Lemma main_sample_seen_clear (P : platform) (fuel : nat) (t : timespec)
    (d : dev P) (last : option event) :
  decodes_after seen_clear last (events (main_sample P fuel t d)) = true.
Proof.
  destruct (poll_track P fuel d seen_clear last) as [Hdec Htrack].
  destruct (main_sample_cases P fuel t d)
    as [[Hout E] | [Hout (d2 & r & resp & H)]].
  - rewrite E. exact Hdec.
  - destruct (Htrack tt Hout) as (s & Hs & Hrd & Hclear).
    cbv zeta in H.
    destruct H as [[_ E] | [_ (now & wr & d4 & [[_ E] | [_ E]])]];
      rewrite E; cbn [events snd];
      rewrite decodes_after_app, Hdec, Hs;
      cbn [decodes_after is_decode is_read_of load nth andb];
      change (0xB8 =? Z.lor (Z.shiftl 1 7) LDC1101_LHR_STATUS) with false;
      cbv beta iota; rewrite ?Hclear; reflexivity.
Qed.

Lemma main_samples_seen_clear (P : platform) (fuel : nat) (t : timespec)
    (n : nat) (d : dev P) (last : option event) :
  decodes_after seen_clear last (events (main_samples P fuel t n d)) = true.
Proof.
  revert d last. induction n as [| n IH]; intros d last; [reflexivity |].
  rewrite main_samples_step.
  pose proof (main_sample_seen_clear P fuel t d last) as Hone.
  destruct (outcome (main_sample P fuel t d)) as [[v |] | s |];
    cbn [events snd]; rewrite ?app_nil_r; try exact Hone.
  rewrite decodes_after_app, Hone. apply IH.
Qed.

(** As long as no status transfer returns -1, the two views agree. *)
Lemma decodes_after_read_ready (last : option event) (evs : list event) :
  (forall s, last = Some s -> transfer_failed s = false) ->
  (forall e, In e evs -> is_read_of LDC1101_LHR_STATUS e = true ->
             transfer_failed e = false) ->
  decodes_after read_ready last evs = decodes_after seen_clear last evs.
Proof.
  revert last. induction evs as [| e tl IH]; intros last Hlast Hall; [reflexivity |].
  cbn [decodes_after]. f_equal.
  - destruct (is_decode e); [| reflexivity].
    destruct last as [s |]; [| reflexivity].
    unfold read_ready. rewrite (Hlast s eq_refl). reflexivity.
  - apply IH.
    + intros s Hs. destruct (is_read_of LDC1101_LHR_STATUS e) eqn:Hrd.
      * injection Hs as <-. apply Hall; [left; reflexivity | exact Hrd].
      * apply Hlast. exact Hs.
    + intros e' Hin. apply Hall. right. exact Hin.
Qed.

(** When every status transfer goes through, each sample is decoded after a
    status read that returned a byte with bit 0 clear. *)
Lemma main_samples_read_ready (P : platform) (fuel : nat) (t : timespec)
    (n : nat) (d : dev P) :
  (forall e, In e (events (main_samples P fuel t n d)) ->
             is_read_of LDC1101_LHR_STATUS e = true -> transfer_failed e = false) ->
  decodes_after read_ready None (events (main_samples P fuel t n d)) = true.
Proof.
  intros Hall. rewrite decodes_after_read_ready.
  - apply main_samples_seen_clear.
  - discriminate.
  - exact Hall.
Qed.

(** C1, on the code: a status transfer that returns -1 leaves [data[1]] at
    the 0 it was initialised with, the loop takes that for "ready", and the
    sample is read and decoded although no status read showed bit 0 clear. *)
Theorem failed_status_read_taken_as_ready :
  events (main_sample scripted 1 t0 script_status_fails)
  = [ EvSpiRW [0xBB; 0] 3 (-1) [0xBB; 0];
      EvSyslog (LogReadFailed LDC1101_LHR_STATUS);
      EvSpiRW [0xB8; 0; 0; 0] 5 5 [0; 1; 2; 3];
      EvClock {| tv_sec := 2; tv_nsec := 500 |};
      EvRow {| tv_sec := 0; tv_nsec := 999999600 |} 0x030201 12 ] /\
  outcome (main_sample scripted 1 t0 script_status_fails) = Done None /\
  decodes_after read_ready None
    (events (main_sample scripted 1 t0 script_status_fails)) = false.
Proof. repeat split; reflexivity. Qed.

(** The same holds over the whole acquisition: the commands sent between
    the batches and the epilogue decode nothing. *)
Lemma main_steps_seen_clear (P : platform) (fuel : nat) (t : timespec)
    (num_samples : nat) (cmd_inc : Z) (num_steps : nat) (cmd_val : Z)
    (d : dev P) (last : option event) :
  decodes_after seen_clear last
    (events (main_steps P fuel t num_samples cmd_inc num_steps cmd_val d)) = true.
Proof.
  revert cmd_val d last.
  induction num_steps as [| steps IH]; intros cmd_val d last; [reflexivity |].
  cbn [main_steps]. unfold bind at 1.
  pose proof (main_samples_seen_clear P fuel t num_samples d last) as Hb.
  destruct (main_samples P fuel t num_samples d) as [[r d1] e1].
  cbn [events snd] in Hb.
  destruct r as [[v |] | s |]; cbn [events snd ret]; rewrite ?app_nil_r;
    try exact Hb.
  destruct (Z.abs (wrap 16 (cmd_val + cmd_inc)) >? max_cmd).
  - cbn [bind syslog emit main_finish ret events snd app].
    rewrite decodes_after_app, Hb. reflexivity.
  - unfold bind at 1, send_command.
    destruct (p_send P d1 (wrap 16 (cmd_val + cmd_inc))) as [d2 sent].
    destruct (sent =? -1).
    + cbn [bind syslog emit main_finish ret events snd app].
      rewrite decodes_after_app, Hb. reflexivity.
    + specialize (IH (wrap 16 (cmd_val + cmd_inc)) d2
                     (track (track last e1)
                        [EvCommand (wrap 16 (cmd_val + cmd_inc)) sent])).
      destruct (main_steps P fuel t num_samples cmd_inc steps
                  (wrap 16 (cmd_val + cmd_inc)) d2) as [[r3 d3] e3].
      cbn [events snd] in *.
      rewrite decodes_after_app, Hb, decodes_after_app, IH. reflexivity.
Qed.

(** * Further properties of the driver and of the acquisition loop *)

(** ** Projections of a list of events *)

Lemma commands_app (e1 e2 : list event) :
  commands (e1 ++ e2) = commands e1 ++ commands e2.
Proof.
  induction e1 as [| e tl IH]; [reflexivity |].
  destruct e; cbn [app commands]; rewrite IH; reflexivity.
Qed.

Lemma rows_app (e1 e2 : list event) :
  rows (e1 ++ e2) = rows e1 ++ rows e2.
Proof.
  induction e1 as [| e tl IH]; [reflexivity |].
  destruct e; cbn [app rows]; rewrite IH; reflexivity.
Qed.

Lemma poll_events_quiet (evs : list event) :
  Forall poll_event evs -> commands evs = [] /\ rows evs = [].
Proof.
  induction 1 as [| e tl He _ [IHc IHr]]; [split; reflexivity |].
  destruct He as [(r & rx & ->) | ->]; cbn [commands rows]; split; assumption.
Qed.

(** One pass ends in one of three ways, sends no command, writes at most one
    row, and its transfers are reads of the status or of the sample. *)
Lemma main_sample_summary (P : platform) (fuel : nat) (t : timespec) (d : dev P) :
  (outcome (main_sample P fuel t d) = Spinning \/
   outcome (main_sample P fuel t d) = Done None \/
   outcome (main_sample P fuel t d) = Done (Some (-1))) /\
  commands (events (main_sample P fuel t d)) = [] /\
  (length (rows (events (main_sample P fuel t d))) <= 1)%nat /\
  Forall (fun f => f = status_frame \/ f = sample_frame)
         (spi_frames (events (main_sample P fuel t d))).
Proof.
  pose proof (poll_run P fuel d) as [Hall _].
  destruct (poll_events_quiet _ Hall) as [Hc Hr].
  split; [| split; [| split]].
  - destruct (main_sample_cases P fuel t d)
      as [[_ E] | [_ (d2 & r & resp & H)]].
    + rewrite E. left. reflexivity.
    + cbv zeta in H.
      destruct H as [[_ E] | [_ (now & wr & d4 & [[_ E] | [_ E]])]]; rewrite E;
        cbn [outcome fst]; auto.
  - destruct (main_sample_cases P fuel t d)
      as [[_ E] | [_ (d2 & r & resp & H)]].
    + rewrite E. exact Hc.
    + cbv zeta in H.
      destruct H as [[_ E] | [_ (now & wr & d4 & [[_ E] | [_ E]])]]; rewrite E;
        cbn [events snd]; rewrite commands_app, Hc; reflexivity.
  - destruct (main_sample_cases P fuel t d)
      as [[_ E] | [_ (d2 & r & resp & H)]].
    + rewrite E. cbn [events snd]. rewrite Hr. cbn. lia.
    + cbv zeta in H.
      destruct H as [[_ E] | [_ (now & wr & d4 & [[_ E] | [_ E]])]]; rewrite E;
        cbn [events snd]; rewrite rows_app, Hr; cbn; lia.
  - destruct (main_sample_frames P fuel t d) as [[_ E] | (k & _ & E)]; rewrite E.
    + apply Forall_forall. intros f Hf. apply repeat_spec in Hf. left. exact Hf.
    + apply Forall_app. split.
      * apply Forall_forall. intros f Hf. apply repeat_spec in Hf. left. exact Hf.
      * constructor; [right; reflexivity | constructor].
Qed.

Lemma main_samples_summary (P : platform) (fuel : nat) (t : timespec) (n : nat)
    (d : dev P) :
  (outcome (main_samples P fuel t n d) = Spinning \/
   outcome (main_samples P fuel t n d) = Done None \/
   outcome (main_samples P fuel t n d) = Done (Some (-1))) /\
  commands (events (main_samples P fuel t n d)) = [] /\
  (length (rows (events (main_samples P fuel t n d))) <= n)%nat /\
  Forall (fun f => f = status_frame \/ f = sample_frame)
         (spi_frames (events (main_samples P fuel t n d))).
Proof.
  revert d. induction n as [| n IH]; intros d.
  - cbn. repeat split; auto. 
  - rewrite main_samples_step.
    destruct (main_sample_summary P fuel t d) as (Ho & Hc & Hr & Hf).
    destruct (IH (final (main_sample P fuel t d))) as (Ho' & Hc' & Hr' & Hf').
    destruct (outcome (main_sample P fuel t d)) as [[v |] | s |] eqn:Eo;
      cbn [outcome events fst snd]; rewrite ?app_nil_r.
    + destruct Ho as [Ho | [Ho | Ho]]; try discriminate Ho.
      injection Ho as ->. repeat split; auto. lia.
    + rewrite commands_app, rows_app, spi_frames_app, length_app, Hc, Hc'.
      repeat split; auto; [lia | apply Forall_app; split; assumption].
    + destruct Ho as [Ho | [Ho | Ho]]; discriminate Ho.
    + repeat split; auto. lia.
Qed.

(** ** The loop over the steps *)

(** One turn of the outer loop: a batch of samples; the command value is
    advanced; past the limit, or when the command cannot be sent, the loop
    is left and [main] finishes; otherwise the remaining turns follow. *)
Lemma main_steps_step (P : platform) (fuel : nat) (t : timespec)
    (num_samples : nat) (cmd_inc : Z) (steps : nat) (cmd_val : Z) (d : dev P) :
  main_steps P fuel t num_samples cmd_inc (S steps) cmd_val d
  = let batch := main_samples P fuel t num_samples d in
    let c := wrap 16 (cmd_val + cmd_inc) in
    match outcome batch with
    | Done (Some v) => (Done v, final batch, events batch ++ [])
    | Done None =>
        if Z.abs c >? max_cmd then
          (Done 0, final batch,
           events batch
           ++ [EvSyslog (LogCmdLimit max_cmd); EvClose; EvSyslog LogComplete])
        else
          let sent := snd (p_send P (final batch) c) in
          let d2 := fst (p_send P (final batch) c) in
          if sent =? -1 then
            (Done 0, d2,
             events batch
             ++ [EvCommand c sent; EvSyslog (LogSendFailed c); EvClose;
                 EvSyslog LogComplete])
          else
            (outcome (main_steps P fuel t num_samples cmd_inc steps c d2),
             final (main_steps P fuel t num_samples cmd_inc steps c d2),
             events batch
             ++ EvCommand c sent
                :: events (main_steps P fuel t num_samples cmd_inc steps c d2))
    | Exited s => (Exited s, final batch, events batch)
    | Spinning => (Spinning, final batch, events batch)
    end.
Proof.
  cbn [main_steps]. unfold bind at 1. cbv zeta.
  destruct (main_samples P fuel t num_samples d) as [[r d1] e1].
  cbn [outcome final events fst snd].
  destruct r as [[v |] | s |]; try reflexivity.
  destruct (Z.abs (wrap 16 (cmd_val + cmd_inc)) >? max_cmd); [reflexivity |].
  unfold bind at 1, send_command.
  destruct (p_send P d1 (wrap 16 (cmd_val + cmd_inc))) as [d2 sent].
  cbn [fst snd].
  destruct (sent =? -1); [reflexivity |].
  destruct (main_steps P fuel t num_samples cmd_inc steps
              (wrap 16 (cmd_val + cmd_inc)) d2) as [[r3 d3] e3].
  reflexivity.
Qed.

Lemma main_steps_summary (P : platform) (fuel : nat) (t : timespec)
    (num_samples : nat) (cmd_inc : Z) (num_steps : nat) (cmd_val : Z)
    (d : dev P) :
  (outcome (main_steps P fuel t num_samples cmd_inc num_steps cmd_val d) = Spinning \/
   outcome (main_steps P fuel t num_samples cmd_inc num_steps cmd_val d) = Done 0 \/
   outcome (main_steps P fuel t num_samples cmd_inc num_steps cmd_val d) = Done (-1)) /\
  (exists k, (k <= num_steps)%nat /\
     commands (events (main_steps P fuel t num_samples cmd_inc num_steps cmd_val d))
     = cmd_iterates cmd_inc k cmd_val) /\
  Forall (fun c => Z.abs c <= max_cmd)
    (commands (events (main_steps P fuel t num_samples cmd_inc num_steps cmd_val d))) /\
  (length (rows (events (main_steps P fuel t num_samples cmd_inc num_steps cmd_val d)))
   <= num_steps * num_samples)%nat /\
  Forall (fun f => f = status_frame \/ f = sample_frame)
    (spi_frames (events (main_steps P fuel t num_samples cmd_inc num_steps cmd_val d))).
Proof.
  revert cmd_val d. induction num_steps as [| steps IH]; intros cmd_val d.
  - cbn. refine (conj _ (conj _ (conj _ (conj _ _)))); auto.
    exists 0%nat. split; [lia | reflexivity].
  - rewrite main_steps_step. cbv zeta.
    destruct (main_samples_summary P fuel t num_samples d) as (Ho & Hc & Hr & Hf).
    set (batch := main_samples P fuel t num_samples d) in *.
    set (c := wrap 16 (cmd_val + cmd_inc)).
    destruct (outcome batch) as [[v |] | s |] eqn:Eo.
    + destruct Ho as [Ho | [Ho | Ho]]; try discriminate Ho. injection Ho as ->.
      cbn [outcome events fst snd]. rewrite app_nil_r, Hc.
      refine (conj _ (conj _ (conj _ (conj _ _)))); auto.
      * exists 0%nat. split; [lia | reflexivity].
      * lia.
    + destruct (Z.gtb_spec (Z.abs c) max_cmd) as [Hlim | Hlim].
      * cbn [outcome events fst snd].
        rewrite commands_app, rows_app, spi_frames_app, Hc, length_app.
        cbn [commands rows spi_frames app length]. rewrite !app_nil_r.
        refine (conj _ (conj _ (conj _ (conj _ _)))); auto.
        -- exists 0%nat. split; [lia | reflexivity].
        -- lia.
      * destruct (snd (p_send P (final batch) c) =? -1).
        -- cbn [outcome events fst snd].
           rewrite commands_app, rows_app, spi_frames_app, Hc, length_app.
           cbn [commands rows spi_frames app length]. rewrite !app_nil_r.
           refine (conj _ (conj _ (conj _ (conj _ _)))); auto.
           ++ exists 1%nat. split; [lia | reflexivity].
           ++ lia.
        -- destruct (IH c (fst (p_send P (final batch) c)))
             as (Ho' & (k & Hk & Hc') & Hl' & Hr' & Hf').
           cbn [outcome events fst snd].
           rewrite commands_app, rows_app, spi_frames_app, Hc, length_app.
           cbn [commands rows spi_frames app].
           refine (conj _ (conj _ (conj _ (conj _ _)))); auto.
           ++ exists (S k). split; [lia |]. rewrite Hc'. reflexivity.
           ++ lia.
           ++ apply Forall_app. split; assumption.
    + destruct Ho as [Ho | [Ho | Ho]]; discriminate Ho.
    + cbn [outcome events fst snd]. rewrite Hc.
      refine (conj _ (conj _ (conj _ (conj _ _)))); auto.
      * exists 0%nat. split; [lia | reflexivity].
      * lia.
Qed.

(** ** A failed write of a row *)

(** The rows of one pass: none, or one; the pass makes [main] return -1
    exactly when the write of its row returned -1. *)
Lemma main_sample_rows (P : platform) (fuel : nat) (t : timespec) (d : dev P) :
  (rows (events (main_sample P fuel t d)) = [] /\
   outcome (main_sample P fuel t d) <> Done (Some (-1)))
  \/
  (exists v wr, rows (events (main_sample P fuel t d)) = [(v, wr)] /\
     wr <> -1 /\ outcome (main_sample P fuel t d) = Done None)
  \/
  (exists v, rows (events (main_sample P fuel t d)) = [(v, -1)] /\
     outcome (main_sample P fuel t d) = Done (Some (-1))).
Proof.
  pose proof (poll_run P fuel d) as [Hall _].
  destruct (poll_events_quiet _ Hall) as [_ Hr].
  destruct (main_sample_cases P fuel t d)
    as [[_ E] | [_ (d2 & r & resp & H)]].
  - left. rewrite E. cbn [events outcome fst snd].
    split; [exact Hr | discriminate].
  - cbv zeta in H.
    destruct H as [[_ E] | [_ (now & wr & d4 & [[Hw E] | [Hw E]])]]; rewrite E;
      cbn [events outcome fst snd]; rewrite rows_app, Hr; cbn [rows app].
    + left. split; [reflexivity | discriminate].
    + right. right. subst wr. eexists. split; reflexivity.
    + right. left. do 2 eexists. split; [reflexivity | split; [exact Hw | reflexivity]].
Qed.

(** The rows of a batch: all written but possibly the last, whose failure
    is what makes the batch return -1. *)
Lemma main_samples_rows (P : platform) (fuel : nat) (t : timespec) (n : nat)
    (d : dev P) :
  exists oks,
    Forall (fun r => snd r <> -1) oks /\
    ((rows (events (main_samples P fuel t n d)) = oks /\
      outcome (main_samples P fuel t n d) <> Done (Some (-1)))
     \/
     (exists v, rows (events (main_samples P fuel t n d)) = oks ++ [(v, -1)] /\
        outcome (main_samples P fuel t n d) = Done (Some (-1)))).
Proof.
  revert d. induction n as [| n IH]; intros d.
  - exists []. split; [constructor |]. left. cbn. split; [reflexivity | discriminate].
  - rewrite main_samples_step.
    destruct (main_sample_rows P fuel t d)
      as [[Hr Ho] | [(v & wr & Hr & Hw & Ho) | (v & Hr & Ho)]].
    + destruct (outcome (main_sample P fuel t d)) as [[x |] | s |] eqn:Eo;
        cbn [events outcome fst snd]; rewrite ?app_nil_r.
      * exists []. split; [constructor |]. left. rewrite Hr.
        split; [reflexivity |]. intros E. apply Ho. exact E.
      * destruct (IH (final (main_sample P fuel t d))) as (oks & Hoks & H).
        exists oks. split; [exact Hoks |]. rewrite rows_app, Hr. exact H.
      * exists []. split; [constructor |]. left. rewrite Hr.
        split; [reflexivity | discriminate].
      * exists []. split; [constructor |]. left. rewrite Hr.
        split; [reflexivity | discriminate].
    + rewrite Ho. cbn [events outcome fst snd].
      destruct (IH (final (main_sample P fuel t d))) as (oks & Hoks & H).
      exists ((v, wr) :: oks). split; [constructor; [exact Hw | exact Hoks] |].
      rewrite rows_app, Hr. cbn [app].
      destruct H as [[H1 H2] | (v' & H1 & H2)].
      * left. rewrite H1. split; [reflexivity | exact H2].
      * right. exists v'. rewrite H1. split; [reflexivity | exact H2].
    + rewrite Ho. cbn [events outcome fst snd]. rewrite app_nil_r.
      exists []. split; [constructor |]. right. exists v. rewrite Hr.
      split; reflexivity.
Qed.

(** ** Further properties of ldc1101_init *)

(** X1: when [wiringPiSPIxSetupMode] returns -1, [ldc1101_init] logs the
    descriptor and the failure and exits with [EXIT_FAILURE]; no transfer
    is issued on the bus. *)
Theorem init_setup_failure (P : platform) (d : dev P) (num chan speed mode : Z) :
  In (EvSpiSetup num chan speed mode (-1)) (events (ldc1101_init P d)) ->
  outcome (ldc1101_init P d) = Exited EXIT_FAILURE /\
  spi_frames (events (ldc1101_init P d)) = [] /\
  events (ldc1101_init P d)
  = [ EvSpiSetup spi_num spi_chan SPI_SPEED SPI_MODE_3 (-1);
      EvSyslog (LogSpiFd (-1)); EvSyslog LogSpiSetupFailed ].
Proof.
  init_paths; intros Hin.
  all: cbn [In] in Hin; split_in Hin; try discriminate Hin.
  all: injection Hin as _ _ _ _ Hfd'; try (subst; contradiction).
  subst fd. repeat split.
Qed.

Lemma init_setup_failure_witness :
  outcome (ldc1101_init no_spi []) = Exited EXIT_FAILURE /\
  spi_frames (events (ldc1101_init no_spi [])) = [] /\
  events (ldc1101_init no_spi [])
  = [ EvSpiSetup spi_num spi_chan SPI_SPEED SPI_MODE_3 (-1);
      EvSyslog (LogSpiFd (-1)); EvSyslog LogSpiSetupFailed ].
Proof.
  apply (init_setup_failure no_spi [] spi_num spi_chan SPI_SPEED SPI_MODE_3).
  vm_compute. left. reflexivity.
Defined.

(** X2: when the transfer of the identity read returns -1, [ldc1101_init]
    does not look at the identity byte: it logs the failed read twice (once
    in [ldc1101_read_reg], once itself), exits with [EXIT_FAILURE], and
    START_CONFIG is never written. *)
Theorem init_identity_read_failure (P : platform) (d : dev P) (e : event) :
  In e (events (ldc1101_init P d)) ->
  is_read_of LDC1101_CHIP_ID e = true ->
  transfer_failed e = true ->
  outcome (ldc1101_init P d) = Exited EXIT_FAILURE /\
  (exists pre,
     events (ldc1101_init P d)
     = pre ++ [e; EvSyslog (LogReadFailed LDC1101_CHIP_ID);
               EvSyslog LogIdReadFailed]) /\
  (forall e', In e' (events (ldc1101_init P d)) ->
              is_write_of LDC1101_START_CONFIG e' = false).
Proof.
  init_paths; intros Hin Hrd Hf.
  all: cbn [In] in Hin; split_in Hin; subst e; try discriminate Hrd.
  all: cbn [transfer_failed] in Hf; apply Z.eqb_eq in Hf; try contradiction.
  split; [reflexivity | split].
  - refine (ex_intro _ [_; _; _; _; _; _; _; _] _). reflexivity.
  - intros e' He'. cbn [In] in He'. split_in He'; subst e'; reflexivity.
Qed.

Lemma init_identity_read_failure_witness :
  events (ldc1101_init scripted script_id_read_fails)
  = [ EvSpiSetup 0 0 1000000 3 3; EvSyslog (LogSpiFd 3);
      EvSyslog LogSpiInitialized;
      EvSpiRW [0x05; 0x01] 2 2 [0; 0]; EvSpiRW [0x0C; 0x01] 2 2 [0; 0];
      EvSpiRW [0x31; 0xFF] 2 2 [0; 0]; EvSpiRW [0x30; 0xFF] 2 2 [0; 0];
      EvSpiRW [0x01; 0x07] 2 2 [0; 0];
      EvSpiRW [0xBF; 0] 3 (-1) [0xBF; 0];
      EvSyslog (LogReadFailed 0x3F); EvSyslog LogIdReadFailed ] /\
  outcome (ldc1101_init scripted script_id_read_fails) = Exited EXIT_FAILURE /\
  (exists pre,
     events (ldc1101_init scripted script_id_read_fails)
     = pre ++ [ EvSpiRW [0xBF; 0] 3 (-1) [0xBF; 0];
                EvSyslog (LogReadFailed LDC1101_CHIP_ID);
                EvSyslog LogIdReadFailed ]) /\
  (forall e', In e' (events (ldc1101_init scripted script_id_read_fails)) ->
              is_write_of LDC1101_START_CONFIG e' = false).
Proof.
  split; [reflexivity |].
  apply (init_identity_read_failure scripted script_id_read_fails
           (EvSpiRW [0xBF; 0] 3 (-1) [0xBF; 0])).
  - vm_compute. do 8 right. left. reflexivity.
  - reflexivity.
  - reflexivity.
Defined.

(** X3: [ldc1101_init] either returns 0 or exits with [EXIT_FAILURE]; it
    never waits.  It returns only after seven transfers none of which
    returned -1, and every exit directly follows a line in the log. *)
Theorem init_outcomes (P : platform) (d : dev P) :
  (outcome (ldc1101_init P d) = Done 0 /\
   length (spi_frames (events (ldc1101_init P d))) = 7%nat /\
   forallb (fun e => negb (transfer_failed e)) (events (ldc1101_init P d)) = true)
  \/
  (outcome (ldc1101_init P d) = Exited EXIT_FAILURE /\
   (length (spi_frames (events (ldc1101_init P d))) <= 7)%nat /\
   exists pre m, events (ldc1101_init P d) = pre ++ [EvSyslog m]).
Proof.
  init_paths.
  - right. split; [reflexivity | split; [cbn; lia |]].
    refine (ex_intro _ [_; _] _). eexists. reflexivity.
  - right. split; [reflexivity | split; [cbn; lia |]].
    refine (ex_intro _ [_; _; _; _] _). eexists. reflexivity.
  - right. split; [reflexivity | split; [cbn; lia |]].
    refine (ex_intro _ [_; _; _; _; _] _). eexists. reflexivity.
  - right. split; [reflexivity | split; [cbn; lia |]].
    refine (ex_intro _ [_; _; _; _; _; _] _). eexists. reflexivity.
  - right. split; [reflexivity | split; [cbn; lia |]].
    refine (ex_intro _ [_; _; _; _; _; _; _] _). eexists. reflexivity.
  - right. split; [reflexivity | split; [cbn; lia |]].
    refine (ex_intro _ [_; _; _; _; _; _; _; _] _). eexists. reflexivity.
  - right. split; [reflexivity | split; [cbn; lia |]].
    refine (ex_intro _ [_; _; _; _; _; _; _; _; _; _] _). eexists. reflexivity.
  - right. split; [reflexivity | split; [cbn; lia |]].
    refine (ex_intro _ [_; _; _; _; _; _; _; _; _; _; _] _). eexists. reflexivity.
  - left. split; [reflexivity | split; [reflexivity |]].
    cbn [forallb transfer_failed negb andb].
    repeat match goal with
           | H : ?r <> -1 |- context [?r =? -1] =>
               rewrite (proj2 (Z.eqb_neq r (-1)) H)
           end.
    reflexivity.
  - right. split; [reflexivity | split; [cbn; lia |]].
    refine (ex_intro _ [_; _; _; _; _; _; _; _; _] _). eexists. reflexivity.
Qed.

(** ** Further properties of the sample loop *)

(** X4: the busy-poll issues nothing but status reads, each on a two-byte
    array with length argument 3, and never exits the process.  If it
    returns, it made [k + 1] reads with [k] below the fuel, the tested bit
    was set after each of the first [k] and clear after the last; if it is
    still polling when the fuel is spent, the bit was set after every read. *)
Theorem busy_poll_reads (P : platform) (fuel : nat) (d : dev P) :
  (exists k, (k < fuel)%nat /\
     outcome (poll P fuel d) = Done tt /\
     spi_frames (events (poll P fuel d)) = repeat status_frame (S k) /\
     status_bits (events (poll P fuel d)) = repeat false k ++ [true])
  \/
  (outcome (poll P fuel d) = Spinning /\
   spi_frames (events (poll P fuel d)) = repeat status_frame fuel /\
   status_bits (events (poll P fuel d)) = repeat false fuel).
Proof.
  pose proof (poll_run P fuel d) as [_ H].
  destruct (outcome (poll P fuel d)) as [[] | s |].
  - left. destruct H as (k & Hk & Hf & Hb). exists k. auto.
  - contradiction.
  - right. destruct H as [Hf Hb]. auto.
Qed.

(** X5: when the busy-poll has returned and the sample transfer does not
    return -1, the pass reads the clock and writes exactly one row, right
    after that transfer.  The value of the row is decoded from the four-cell
    array the transfer left and is below [2^24].  The pass then ends without
    a return from [main], unless the write of the row returned -1, in which
    case [main] returns -1. *)
Theorem sample_row_contents (P : platform) (fuel : nat) (t : timespec)
    (d : dev P) :
  outcome (poll P fuel d) = Done tt ->
  let tr := p_transfer P (final (poll P fuel d)) [0xB8; 0; 0; 0] 5 in
  let rx := receive [0xB8; 0; 0; 0] (snd (snd tr)) in
  fst (snd tr) <> -1 ->
  length rx = 4%nat /\ 0 <= decode_value rx < 2 ^ 24 /\
  exists now el wr post,
    events (main_sample P fuel t d)
    = events (poll P fuel d)
      ++ EvSpiRW [0xB8; 0; 0; 0] 5 (fst (snd tr)) rx :: EvClock now
         :: EvRow el (decode_value rx) wr :: post /\
    rows (events (main_sample P fuel t d)) = [(decode_value rx, wr)] /\
    (wr <> -1 -> post = [] /\ outcome (main_sample P fuel t d) = Done None) /\
    (wr = -1 -> outcome (main_sample P fuel t d) = Done (Some (-1))).
Proof.
  intros Hout tr rx Hr. subst tr rx.
  split; [apply receive_length |]. split; [apply sample_value_range |].
  pose proof (poll_run P fuel d) as [Hall _].
  destruct (poll_events_quiet _ Hall) as [_ Hrows].
  rewrite (main_sample_run P fuel t d Hout). cbv zeta.
  rewrite (proj2 (Z.eqb_neq _ _) Hr).
  match goal with
  | |- context [snd ?w =? -1] => destruct (Z.eqb_spec (snd w) (-1)) as [Hw | Hw]
  end.
  - do 4 eexists. cbn [events outcome fst snd].
    split; [reflexivity |]. split; [| split].
    + rewrite rows_app, Hrows, Hw. reflexivity.
    + intros Hn. contradiction.
    + intros _. reflexivity.
  - do 3 eexists. exists []. cbn [events outcome fst snd].
    split; [reflexivity |]. split; [| split].
    + rewrite rows_app, Hrows. reflexivity.
    + intros _. split; reflexivity.
    + intros Hn. contradiction.
Qed.

Lemma sample_row_contents_witness :
  length [0; 1; 2; 3] = 4%nat /\ 0 <= 0x030201 < 2 ^ 24 /\
  exists now el wr post,
    events (main_sample scripted 1 t0 script_sample)
    = [EvSpiRW [0xBB; 0] 3 3 [0; 0]]
      ++ EvSpiRW [0xB8; 0; 0; 0] 5 5 [0; 1; 2; 3] :: EvClock now
         :: EvRow el 0x030201 wr :: post /\
    rows (events (main_sample scripted 1 t0 script_sample)) = [(0x030201, wr)] /\
    (wr <> -1 ->
     post = [] /\ outcome (main_sample scripted 1 t0 script_sample) = Done None) /\
    (wr = -1 ->
     outcome (main_sample scripted 1 t0 script_sample) = Done (Some (-1))).
Proof.
  exact (sample_row_contents scripted 1 t0 script_sample eq_refl
           ltac:(vm_compute; discriminate)).
Defined.

(** ** Further properties of the acquisition *)

(** X6: once the sampling has begun the process is never exited: [main]
    returns 0, returns -1, or is still polling.  It returns -1 exactly when
    the write of the last row returned -1; every row before the last was
    written. *)
Theorem row_write_failure_stops (P : platform) (fuel : nat) (t : timespec)
    (num_samples : nat) (cmd_inc : Z) (num_steps : nat) (cmd_val : Z)
    (d : dev P) :
  (outcome (main_steps P fuel t num_samples cmd_inc num_steps cmd_val d) = Spinning \/
   outcome (main_steps P fuel t num_samples cmd_inc num_steps cmd_val d) = Done 0 \/
   outcome (main_steps P fuel t num_samples cmd_inc num_steps cmd_val d) = Done (-1)) /\
  exists oks,
    Forall (fun r => snd r <> -1) oks /\
    ((rows (events (main_steps P fuel t num_samples cmd_inc num_steps cmd_val d)) = oks /\
      outcome (main_steps P fuel t num_samples cmd_inc num_steps cmd_val d) <> Done (-1))
     \/
     (exists v,
        rows (events (main_steps P fuel t num_samples cmd_inc num_steps cmd_val d))
        = oks ++ [(v, -1)] /\
        outcome (main_steps P fuel t num_samples cmd_inc num_steps cmd_val d) = Done (-1))).
Proof.
  split; [apply main_steps_summary |].
  revert cmd_val d. induction num_steps as [| steps IH]; intros cmd_val d.
  - exists []. split; [constructor |]. left. cbn. split; [reflexivity | discriminate].
  - rewrite main_steps_step. cbv zeta.
    destruct (main_samples_summary P fuel t num_samples d) as (Ho & _).
    destruct (main_samples_rows P fuel t num_samples d) as (oks & Hoks & Hrows).
    set (batch := main_samples P fuel t num_samples d) in *.
    set (c := wrap 16 (cmd_val + cmd_inc)).
    destruct (outcome batch) as [[v |] | s |] eqn:Eo.
    + destruct Ho as [Ho | [Ho | Ho]]; try discriminate Ho. injection Ho as ->.
      destruct Hrows as [[_ Hne] | (v & Hr & _)]; [contradiction Hne; reflexivity |].
      exists oks. split; [exact Hoks |]. right. exists v.
      cbn [outcome events fst snd]. rewrite app_nil_r. split; [exact Hr | reflexivity].
    + destruct Hrows as [[Hr _] | (v & _ & Hd)]; [| discriminate Hd].
      destruct (Z.abs c >? max_cmd).
      * exists oks. split; [exact Hoks |]. left.
        cbn [outcome events fst snd]. rewrite rows_app, Hr. cbn [rows].
        rewrite app_nil_r. split; [reflexivity | discriminate].
      * destruct (snd (p_send P (final batch) c) =? -1).
        -- exists oks. split; [exact Hoks |]. left.
           cbn [outcome events fst snd]. rewrite rows_app, Hr. cbn [rows].
           rewrite app_nil_r. split; [reflexivity | discriminate].
        -- destruct (IH c (fst (p_send P (final batch) c)))
             as (oks' & Hoks' & H).
           exists (oks ++ oks'). split; [apply Forall_app; split; assumption |].
           cbn [outcome events fst snd]. rewrite rows_app, Hr. cbn [rows].
           destruct H as [[H1 H2] | (v & H1 & H2)].
           ++ left. rewrite H1. split; [reflexivity | exact H2].
           ++ right. exists v. rewrite H1, app_assoc. split; [reflexivity | exact H2].
    + destruct Ho as [Ho | [Ho | Ho]]; discriminate Ho.
    + destruct Hrows as [[Hr _] | (v & _ & Hd)]; [| discriminate Hd].
      exists oks. split; [exact Hoks |]. left.
      cbn [outcome events fst snd]. split; [exact Hr | discriminate].
Qed.

(** X7: no command beyond the limit is ever sent from the loop: every
    command value lies within [-24000, 24000]. *)
Theorem commands_within_limit (P : platform) (fuel : nat) (t : timespec)
    (num_samples : nat) (cmd_inc : Z) (num_steps : nat) (cmd_val : Z)
    (d : dev P) :
  Forall (fun c => -24000 <= c <= 24000)
    (commands (events (main_steps P fuel t num_samples cmd_inc num_steps cmd_val d))).
Proof.
  destruct (main_steps_summary P fuel t num_samples cmd_inc num_steps cmd_val d)
    as (_ & _ & H & _).
  eapply Forall_impl; [| exact H].
  intros c Hc. cbn beta in Hc. unfold max_cmd in Hc. lia.
Qed.

(** X8: at most one command is sent per step, and the commands are the
    successive values of [cmd_val += cmd_inc] computed on an [int16_t]:
    each is the previous one plus the increment, wrapped to 16 bits. *)
Theorem commands_follow_increment (P : platform) (fuel : nat) (t : timespec)
    (num_samples : nat) (cmd_inc : Z) (num_steps : nat) (cmd_val : Z)
    (d : dev P) :
  exists k, (k <= num_steps)%nat /\
    commands (events (main_steps P fuel t num_samples cmd_inc num_steps cmd_val d))
    = cmd_iterates cmd_inc k cmd_val.
Proof. apply main_steps_summary. Qed.

(** X9: the limit is tested on the wrapped value.  Starting from 0 with an
    increment between 20768 and 24000, the second value leaves the range of
    [int16_t] and wraps to [2 * cmd_inc - 65536], which is negative and
    within the limit: whenever a second command is sent, it is that one. *)
Theorem command_overflow_reverses (P : platform) (fuel : nat) (t : timespec)
    (num_samples : nat) (cmd_inc : Z) (num_steps : nat) (d : dev P) (c : Z) :
  20768 <= cmd_inc <= 24000 ->
  nth_error
    (commands (events (main_steps P fuel t num_samples cmd_inc num_steps 0 d))) 1
  = Some c ->
  c = 2 * cmd_inc - 65536 /\ -24000 <= c < 0.
Proof.
  intros Hinc Hnth.
  destruct (main_steps_summary P fuel t num_samples cmd_inc num_steps 0 d)
    as (_ & (k & _ & Hc) & _).
  rewrite Hc in Hnth.
  destruct k as [| [| k]]; try discriminate Hnth.
  cbn [cmd_iterates nth_error] in Hnth. cbv zeta in Hnth.
  rewrite ?Z.add_0_l in Hnth.
  assert (E1 : wrap 16 cmd_inc = cmd_inc).
  { apply wrap_small; [lia |]. unfold in_long.
    change (2 ^ (16 - 1)) with 32768. lia. }
  rewrite E1 in Hnth. injection Hnth as <-.
  assert (E2 : wrap 16 (cmd_inc + cmd_inc) = 2 * cmd_inc - 65536).
  { unfold wrap. change (2 ^ (16 - 1)) with 32768. change (2 ^ 16) with 65536.
    replace (cmd_inc + cmd_inc + 32768) with (2 * cmd_inc - 32768 + 1 * 65536) by lia.
    rewrite Z.mod_add by lia. rewrite Z.mod_small by lia. lia. }
  rewrite E2. lia.
Qed.

Lemma command_overflow_reverses_witness :
  commands (events (main_steps scripted 1 t0 1 24000 2 0 [])) = [24000; -17536] /\
  -17536 = 2 * 24000 - 65536 /\ -24000 <= -17536 < 0.
Proof.
  split; [reflexivity |].
  apply (command_overflow_reverses scripted 1 t0 1 24000 2 []).
  - lia.
  - reflexivity.
Defined.

(** X10: the acquisition only reads from the device: each of its transfers
    is a status read (two-byte array, length argument 3) or a sample read
    (four-byte array, length argument 5), both with the direction bit set. *)
Theorem acquisition_only_reads (P : platform) (fuel : nat) (t : timespec)
    (num_samples : nat) (cmd_inc : Z) (num_steps : nat) (cmd_val : Z)
    (d : dev P) :
  Forall (fun f => (f = status_frame \/ f = sample_frame) /\
                   is_read_frame (fst f) = true)
    (spi_frames (events (main_steps P fuel t num_samples cmd_inc num_steps cmd_val d))).
Proof.
  destruct (main_steps_summary P fuel t num_samples cmd_inc num_steps cmd_val d)
    as (_ & _ & _ & _ & H).
  eapply Forall_impl; [| exact H].
  intros f Hf. split; [exact Hf |]. destruct Hf as [-> | ->]; reflexivity.
Qed.

(** X11: the log never holds more rows than [num_steps * num_samples]. *)
Theorem rows_bounded (P : platform) (fuel : nat) (t : timespec)
    (num_samples : nat) (cmd_inc : Z) (num_steps : nat) (cmd_val : Z)
    (d : dev P) :
  (length (rows (events (main_steps P fuel t num_samples cmd_inc num_steps cmd_val d)))
   <= num_steps * num_samples)%nat.
Proof. apply main_steps_summary. Qed.

(** X12: over a whole acquisition in which no status transfer returns -1,
    every sample is decoded after a status read that went through and
    returned a byte with bit 0 clear. *)
Theorem acquisition_ready_when_reads_succeed (P : platform) (fuel : nat)
    (t : timespec) (num_samples : nat) (cmd_inc : Z) (num_steps : nat)
    (cmd_val : Z) (d : dev P) :
  (forall e,
     In e (events (main_steps P fuel t num_samples cmd_inc num_steps cmd_val d)) ->
     is_read_of LDC1101_LHR_STATUS e = true -> transfer_failed e = false) ->
  decodes_after read_ready None
    (events (main_steps P fuel t num_samples cmd_inc num_steps cmd_val d)) = true.
Proof.
  intros Hall. rewrite decodes_after_read_ready.
  - apply main_steps_seen_clear.
  - discriminate.
  - exact Hall.
Qed.

Lemma acquisition_ready_when_reads_succeed_witness :
  decodes_after read_ready None
    (events (main_steps scripted 1 t0 2 1000 1 0 script_two_samples)) = true.
Proof.
  apply (acquisition_ready_when_reads_succeed scripted 1 t0 2 1000 1 0
           script_two_samples).
  intros e He. vm_compute in He.
  repeat (destruct He as [He | He]; [subst e; intros; reflexivity || discriminate |]).
  contradiction.
Defined.

(** ** Further properties of get_elapsed_time and of the decoding *)

(** X13: [get_elapsed_time] does not need [end_] to be after [start]: as
    long as the difference of the seconds and that difference less one fit a
    [long], the result is the exact difference with its nanoseconds in
    [0, 10^9); for an [end_] before [start] the seconds are negative. *)
Theorem get_elapsed_time_any_order (w : Z) (start end_ : timespec) :
  32 <= w ->
  in_long w (tv_sec start) -> in_long w (tv_sec end_) ->
  0 <= tv_nsec start < 1000000000 ->
  0 <= tv_nsec end_ < 1000000000 ->
  - 2 ^ (w - 1) < tv_sec end_ - tv_sec start < 2 ^ (w - 1) ->
  0 <= tv_nsec (get_elapsed_time w start end_) < 1000000000 /\
  ns_of (get_elapsed_time w start end_) = ns_of end_ - ns_of start /\
  (ns_of end_ < ns_of start -> tv_sec (get_elapsed_time w start end_) < 0).
Proof.
  intros Hw Hs He Hns Hne Hfit.
  pose proof (long_holds_nsec w Hw) as HM.
  destruct start as [ss sn], end_ as [es en].
  unfold get_elapsed_time, ns_of, in_long in *. cbn [tv_sec tv_nsec] in *.
  assert (Hw0 : 0 < w) by lia.
  rewrite (wrap_small w (en - sn)) by (unfold in_long; lia).
  destruct (Z.ltb_spec (en - sn) 0) as [Hneg | Hpos]; cbn [tv_sec tv_nsec].
  - rewrite (wrap_small w (es - ss)) by (unfold in_long; lia).
    rewrite (wrap_small w (es - ss - 1)) by (unfold in_long; lia).
    rewrite (wrap_small w (1000000000 + en)) by (unfold in_long; lia).
    rewrite (wrap_small w (1000000000 + en - sn)) by (unfold in_long; lia).
    lia.
  - rewrite (wrap_small w (es - ss)) by (unfold in_long; lia).
    lia.
Qed.

Lemma get_elapsed_time_any_order_witness :
  0 <= tv_nsec (get_elapsed_time 64 {| tv_sec := 2; tv_nsec := 500 |} t0)
    < 1000000000 /\
  ns_of (get_elapsed_time 64 {| tv_sec := 2; tv_nsec := 500 |} t0)
  = ns_of t0 - ns_of {| tv_sec := 2; tv_nsec := 500 |} /\
  (ns_of t0 < ns_of {| tv_sec := 2; tv_nsec := 500 |} ->
   tv_sec (get_elapsed_time 64 {| tv_sec := 2; tv_nsec := 500 |} t0) < 0).
Proof.
  apply (get_elapsed_time_any_order 64 {| tv_sec := 2; tv_nsec := 500 |} t0);
    unfold in_long, t0; simpl; lia.
Defined.

(** X14: the decoding loses nothing and looks at nothing else: the three
    value bytes can be read back from the value, and neither the address
    cell nor anything after the fourth cell has a part in it. *)
Theorem decode_value_bytes_back (a a' b0 b1 b2 : Z) (rest : list Z) :
  0 <= b0 < 256 -> 0 <= b1 < 256 -> 0 <= b2 < 256 ->
  decode_value (a :: b0 :: b1 :: b2 :: rest) = decode_value [a'; b0; b1; b2] /\
  decode_value [a; b0; b1; b2] mod 256 = b0 /\
  (decode_value [a; b0; b1; b2] / 256) mod 256 = b1 /\
  decode_value [a; b0; b1; b2] / 65536 = b2.
Proof.
  intros H0 H1 H2. split; [reflexivity |].
  rewrite (decode_value_sum a b0 b1 b2) by assumption.
  repeat split; Z.div_mod_to_equations; lia.
Qed.

Lemma decode_value_bytes_back_witness :
  decode_value [0xB8; 1; 2; 3; 0x55] = decode_value [0; 1; 2; 3] /\
  decode_value [0xB8; 1; 2; 3] mod 256 = 1 /\
  (decode_value [0xB8; 1; 2; 3] / 256) mod 256 = 2 /\
  decode_value [0xB8; 1; 2; 3] / 65536 = 3.
Proof.
  apply (decode_value_bytes_back 0xB8 0 1 2 3 [0x55]); lia.
Defined.

(** * The command line, send_command and main *)

(** ** The options *)

Lemma substring_length (n : nat) (s : String.string) :
  (String.length (String.substring 0 n s) <= n)%nat.
Proof.
  revert s. induction n as [| n IH]; intros s.
  - destruct s; cbn; lia.
  - destruct s as [| c s]; cbn [String.substring String.length]; [lia |].
    specialize (IH s). lia.
Qed.

Lemma wrap16_range (x : Z) : - 32768 <= wrap 16 x < 32768.
Proof.
  unfold wrap. change (2 ^ (16 - 1)) with 32768. change (2 ^ 16) with 65536.
  pose proof (Z.mod_pos_bound (x + 32768) 65536 ltac:(lia)). lia.
Qed.

Lemma parse_option_ok (o : cli_option) (s : settings) :
  (option_ok o /\ exists s', fst (parse_option o s) = Done s' /\
                             (settings_ok s -> settings_ok s'))
  \/ (~ option_ok o /\ fst (parse_option o s) = Exited EXIT_FAILURE).
Proof.
  destruct o as [optarg | v | v | v | c]; cbn [parse_option option_ok].
  - left. split; [exact I |]. eexists. split; [reflexivity |].
    unfold settings_ok. cbn. intros (_ & H). split; [apply substring_length | exact H].
  - destruct (Z.leb_spec v 0) as [H0 | H0]; cbn [orb].
    + right. split; [lia | reflexivity].
    + destruct (Z.gtb_spec v 1000) as [H1 | H1].
      * right. split; [lia | reflexivity].
      * left. split; [lia |]. eexists. split; [reflexivity |].
        unfold settings_ok. cbn. intros (Hl & _ & Hrest). repeat split; try tauto; lia.
  - left. split; [exact I |]. eexists. split; [reflexivity |].
    unfold settings_ok. cbn. pose proof (wrap16_range v). tauto.
  - destruct (Z.leb_spec v 0) as [H0 | H0].
    + right. split; [lia | reflexivity].
    + left. split; [lia |]. eexists. split; [reflexivity |].
      unfold settings_ok. cbn. intros (Hl & Hn & Hc & _). repeat split; try tauto; lia.
  - right. split; [tauto | reflexivity].
Qed.

Lemma default_settings_ok : settings_ok default_settings.
Proof. unfold settings_ok. cbn. lia. Qed.

(** X15: the option loop is passed exactly when every [-n] value lies in
    [1, 1000] (1000 included), every [-s] value is at least 1 and [getopt]
    returned nothing but [l], [n], [v] and [s]; [-l] and [-v] are never
    refused.  Otherwise the process exits with [EXIT_FAILURE]. *)
Theorem options_accepted (opts : list cli_option) (s : settings) :
  ((exists s', fst (parse_options opts s) = Done s') <-> Forall option_ok opts) /\
  (fst (parse_options opts s) = Exited EXIT_FAILURE <-> ~ Forall option_ok opts).
Proof.
  revert s. induction opts as [| o tl IH]; intros s.
  - cbn. split; split.
    + intros _. constructor.
    + intros _. eexists. reflexivity.
    + discriminate.
    + intros H. contradiction H. constructor.
  - cbn [parse_options].
    destruct (parse_option_ok o s) as [[Hok (s' & E & _)] | [Hno E]].
    + destruct (parse_option o s) as [r e1]. cbn [fst] in E. subst r.
      specialize (IH s').
      destruct (parse_options tl s') as [r e2]. cbn [fst] in *.
      destruct IH as [IH1 IH2]. split; split.
      * intros Hd. constructor; [exact Hok | apply IH1; exact Hd].
      * intros Hall. inversion Hall; subst. apply IH1. assumption.
      * intros He Hall. apply (proj1 IH2 He). inversion Hall; assumption.
      * intros Hn. apply IH2. intros Hall. apply Hn. constructor; assumption.
    + destruct (parse_option o s) as [r e1]. cbn [fst] in E. subst r.
      cbn [fst]. split; split.
      * intros [s' Hd]. discriminate Hd.
      * intros Hall. inversion Hall; subst. contradiction.
      * intros _ Hall. inversion Hall; subst. contradiction.
      * intros _. reflexivity.
Qed.

(** X16: when the option loop is passed, starting from the defaults, the
    log file name has at most 49 characters, [num_samples] lies in
    [1, 1000], [cmd_inc] is an [int16_t] and [num_steps] is at least 1. *)
Theorem parsed_settings_in_range (opts : list cli_option) (s' : settings) :
  fst (parse_options opts default_settings) = Done s' -> settings_ok s'.
Proof.
  generalize default_settings_ok. generalize default_settings.
  induction opts as [| o tl IH]; intros s Hs.
  - cbn. intros E. injection E as <-. exact Hs.
  - cbn [parse_options].
    destruct (parse_option_ok o s) as [[_ (s1 & E & Hk)] | [_ E]];
      destruct (parse_option o s) as [r e1]; cbn [fst] in E; subst r.
    + specialize (IH s1 (Hk Hs)).
      destruct (parse_options tl s1) as [r e2]. cbn [fst] in *. exact IH.
    + discriminate.
Qed.

Lemma parsed_settings_in_range_witness :
  settings_ok
    {| cfg_logfile := String.substring 0 49 Literals.long_name;
       cfg_num_samples := 1000;
       cfg_cmd_inc := 4464;
       cfg_num_steps := 3 |}.
Proof.
  apply (parsed_settings_in_range
           [Opt_l Literals.long_name; Opt_n 1000; Opt_v 70000; Opt_s 3]).
  reflexivity.
Defined.

(** X17: the options are taken in order and the first one refused ends the
    process: what follows it on the command line is not looked at, not even
    a later, valid value for the same option. *)
Theorem first_refused_option_exits (pre post : list cli_option)
    (o : cli_option) (s s1 : settings) (e1 : list main_event) :
  parse_options pre s = (Done s1, e1) ->
  ~ option_ok o ->
  parse_options (pre ++ o :: post) s
  = (Exited EXIT_FAILURE, e1 ++ snd (parse_option o s1)).
Proof.
  revert s e1. induction pre as [| p pre IH]; intros s e1 Hpre Hno.
  - cbn in Hpre. injection Hpre as <- <-. cbn [app parse_options].
    destruct (parse_option_ok o s) as [[Hok _] | [_ E]]; [contradiction |].
    destruct (parse_option o s) as [r e]. cbn [fst snd] in *. subst r. reflexivity.
  - cbn [app parse_options] in *.
    destruct (parse_option p s) as [[s2 | c |] e2]; try discriminate Hpre.
    destruct (parse_options pre s2) as [r e3] eqn:E3.
    injection Hpre as -> <-.
    rewrite (IH s2 e3 E3 Hno). rewrite app_assoc. reflexivity.
Qed.

Lemma first_refused_option_exits_witness :
  parse_options ([Opt_s 2] ++ Opt_n 0 :: [Opt_n 10]) default_settings
  = (Exited EXIT_FAILURE,
     [MSyslog (MsgNumStepsSet 2)]
     ++ snd (parse_option (Opt_n 0)
               {| cfg_logfile := Literals.default_logfile;
                  cfg_num_samples := 500;
                  cfg_cmd_inc := 1000;
                  cfg_num_steps := 2 |})).
Proof.
  apply (first_refused_option_exits [Opt_s 2] [Opt_n 10] (Opt_n 0) default_settings).
  - reflexivity.
  - cbn. lia.
Defined.

(** ** send_command *)

(** X18: [send_command] reports a failure only when [UDP_send] returns 0.
    The result is held in a [size_t], so a negative return, the -1 of a
    failed send included, is a large count: the function returns 0 and
    prints that count as the bytes sent. *)
Theorem send_command_negative_passes (size_bits : Z) (CMD_SIZE : nat)
    (D : Type) (htons : Z -> Z) (UDP_send : D -> list Z -> D * Z)
    (d : D) (cmd_val : Z) :
  0 < size_bits ->
  (snd (fst (send_command_body size_bits CMD_SIZE D htons UDP_send d cmd_val)) = -1
   <-> snd (UDP_send d (repeat (htons cmd_val) (CMD_SIZE / 2))) mod 2 ^ size_bits = 0) /\
  (snd (fst (send_command_body size_bits CMD_SIZE D htons UDP_send d cmd_val)) = -1 \/
   snd (fst (send_command_body size_bits CMD_SIZE D htons UDP_send d cmd_val)) = 0) /\
  (- 2 ^ size_bits < snd (UDP_send d (repeat (htons cmd_val) (CMD_SIZE / 2))) < 0 ->
   snd (fst (send_command_body size_bits CMD_SIZE D htons UDP_send d cmd_val)) = 0 /\
   snd (send_command_body size_bits CMD_SIZE D htons UDP_send d cmd_val)
   = ReportSent
       (snd (UDP_send d (repeat (htons cmd_val) (CMD_SIZE / 2))) + 2 ^ size_bits)).
Proof.
  intros Hw. unfold send_command_body.
  destruct (UDP_send d (repeat (htons cmd_val) (CMD_SIZE / 2))) as [d' sent].
  cbn [fst snd].
  assert (Hpos : 0 < 2 ^ size_bits) by (apply Z.pow_pos_nonneg; lia).
  pose proof (Z.mod_pos_bound sent (2 ^ size_bits) Hpos) as Hb.
  destruct (Z.leb_spec (sent mod 2 ^ size_bits) 0) as [H0 | H0]; cbn [fst snd].
  - split; [split; [lia | reflexivity] |]. split; [left; reflexivity |].
    intros Hneg. exfalso.
    assert (E : sent mod 2 ^ size_bits = sent + 2 ^ size_bits).
    { rewrite <- (Z.mod_add sent 1 (2 ^ size_bits)) by lia.
      rewrite Z.mul_1_l. apply Z.mod_small. lia. }
    lia.
  - split; [split; [discriminate | lia] |]. split; [right; reflexivity |].
    intros Hneg. split; [reflexivity |]. f_equal.
    rewrite <- (Z.mod_add sent 1 (2 ^ size_bits)) by lia.
    rewrite Z.mul_1_l. apply Z.mod_small. lia.
Qed.

Lemma send_command_negative_passes_witness :
  snd (fst (send_command_body 64 8 unit (fun x => x) udp_down tt 100)) = 0 /\
  snd (send_command_body 64 8 unit (fun x => x) udp_down tt 100)
  = ReportSent (snd (udp_down tt (repeat ((fun x => x) 100) (8 / 2))) + 2 ^ 64).
Proof.
  apply (send_command_negative_passes 64 8 unit (fun x => x) udp_down tt 100).
  - lia.
  - cbn. lia.
Defined.

(** ** main *)

Lemma driver_events_app (e1 e2 : list main_event) :
  driver_events (e1 ++ e2) = driver_events e1 ++ driver_events e2.
Proof.
  induction e1 as [| e tl IH]; [reflexivity |].
  destruct e; cbn [app driver_events]; rewrite IH; reflexivity.
Qed.

Lemma driver_events_map (evs : list event) : driver_events (map Drv evs) = evs.
Proof.
  induction evs as [| e tl IH]; [reflexivity |].
  cbn [map driver_events]. rewrite IH. reflexivity.
Qed.

(** From the opening of the log file on: a failed [open] and a failed write
    of the header make [main] return -1; otherwise the loops run. *)
Lemma main_log_cases (H : host) (fuel : nat) (t : timespec) (s : settings)
    (d : dev (h_platform H)) :
  main_log H fuel t s d
  = let o := h_open H d (cfg_logfile s) in
    if snd o =? -1 then
      (Done (-1), fst o,
       [MOpen (cfg_logfile s) (snd o); MStderr (MsgOpenFailed (cfg_logfile s))])
    else
      let h := h_header H (fst o) in
      if snd h =? -1 then
        (Done (-1), fst h,
         [MOpen (cfg_logfile s) (snd o); MHeader (snd h);
          MStderr MsgHeaderFailed; Drv EvClose])
      else
        let L := main_steps (h_platform H) fuel t
                   (Z.to_nat (cfg_num_samples s)) (cfg_cmd_inc s)
                   (Z.to_nat (cfg_num_steps s)) 0 (fst h) in
        (outcome L, final L,
         MOpen (cfg_logfile s) (snd o) :: MHeader (snd h) :: map Drv (events L)).
Proof.
  unfold main_log, mbind, open_log, write_header, memit, mret, lift. cbv zeta.
  destruct (h_open H d (cfg_logfile s)) as [d1 fd]. cbn [fst snd].
  destruct (fd =? -1); [reflexivity |].
  destruct (h_header H d1) as [d2 wr]. cbn [fst snd].
  destruct (wr =? -1); [reflexivity |].
  destruct (main_steps (h_platform H) fuel t (Z.to_nat (cfg_num_samples s))
              (cfg_cmd_inc s) (Z.to_nat (cfg_num_steps s)) 0 d2) as [[r d3] e3].
  reflexivity.
Qed.

(** From the first command to the sensor's initialisation: the result of
    the command is not looked at; a failed SPI setup and every failure
    inside [ldc1101_init] exit the process. *)
Lemma main_bringup_cases (H : host) (fuel : nat) (t : timespec) (s : settings)
    (d : dev (h_platform H)) :
  main_bringup H fuel t s d
  = let c := p_send (h_platform H) d start_value in
    let su := p_setup (h_platform H) (fst c) spi_num spi_chan SPI_SPEED SPI_MODE_3 in
    let head := [ Drv (EvCommand start_value (snd c)); MUsleep 100000;
                  MWiringPiSetup;
                  Drv (EvSpiSetup spi_num spi_chan SPI_SPEED SPI_MODE_3 (snd su)) ] in
    if snd su =? -1 then
      (Exited EXIT_FAILURE, fst su, head ++ [Drv (EvSyslog LogSpiSetupFailed)])
    else
      let I := ldc1101_init (h_platform H) (fst su) in
      match outcome I with
      | Done _ =>
          (m_outcome (main_log H fuel t s (final I)),
           snd (fst (main_log H fuel t s (final I))),
           head ++ Drv (EvSyslog LogSpiInitialized) :: map Drv (events I)
           ++ MSyslog MsgLdcInitialized :: m_events (main_log H fuel t s (final I)))
      | Exited code =>
          (Exited code, final I,
           head ++ Drv (EvSyslog LogSpiInitialized) :: map Drv (events I))
      | Spinning =>
          (Spinning, final I,
           head ++ Drv (EvSyslog LogSpiInitialized) :: map Drv (events I))
      end.
Proof.
  unfold main_bringup, mbind, msyslog, memit, mexit, lift, send_command,
    wiringPiSPIxSetupMode, syslog, emit.
  cbv zeta.
  destruct (p_send (h_platform H) d start_value) as [d1 r]. cbn [fst snd].
  destruct (p_setup (h_platform H) d1 spi_num spi_chan SPI_SPEED SPI_MODE_3)
    as [d2 fd]. cbn [fst snd map app].
  destruct (fd =? -1); [reflexivity |].
  cbn [map app].
  destruct (ldc1101_init (h_platform H) d2) as [[ri d3] ei].
  cbn [outcome final events fst snd].
  destruct ri as [z | code |]; try reflexivity.
  destruct (main_log H fuel t s d3) as [[rl d4] el].
  cbn [m_outcome m_events fst snd app]. reflexivity.
Qed.

Lemma main_cases (H : host) (fuel : nat) (opts : list cli_option)
    (d : dev (h_platform H)) :
  main H fuel opts d
  = let ck := p_clock (h_platform H) d in
    let ps := parse_options opts default_settings in
    let head := Drv (EvClock (snd ck)) :: MOpenlog :: MSyslog MsgStarting :: snd ps in
    match fst ps with
    | Done s =>
        let u := h_udp_init H (fst ck) Literals.ip Literals.port in
        if snd u <? 0 then
          (Exited EXIT_FAILURE, fst u,
           head ++ [MUdpInit Literals.ip Literals.port (snd u); MSyslog MsgNoSocket])
        else
          (m_outcome (main_bringup H fuel (snd ck) s (fst u)),
           snd (fst (main_bringup H fuel (snd ck) s (fst u))),
           head ++ MUdpInit Literals.ip Literals.port (snd u)
                :: MSyslog MsgUdpInitialized
                :: m_events (main_bringup H fuel (snd ck) s (fst u)))
    | Exited code => (Exited code, fst ck, head)
    | Spinning => (Spinning, fst ck, head)
    end.
Proof.
  unfold main, mbind, msyslog, memit, mexit, lift, parsed, UDP_init, clock_gettime.
  cbv zeta.
  destruct (p_clock (h_platform H) d) as [d0 t]. cbn [fst snd map app].
  destruct (parse_options opts default_settings) as [rp ep]. cbn [fst snd].
  destruct rp as [s | code |]; try reflexivity.
  destruct (h_udp_init H d0 Literals.ip Literals.port) as [d1 fd]. cbn [fst snd].
  destruct (fd <? 0); [reflexivity |].
  destruct (main_bringup H fuel t s d1) as [[rb d2] eb].
  cbn [m_outcome m_events fst snd app]. reflexivity.
Qed.

Lemma parse_options_cases (opts : list cli_option) (s : settings) :
  settings_ok s ->
  (Forall option_ok opts /\
   exists s', fst (parse_options opts s) = Done s' /\ settings_ok s')
  \/ (~ Forall option_ok opts /\
      fst (parse_options opts s) = Exited EXIT_FAILURE).
Proof.
  revert s. induction opts as [| o tl IH]; intros s Hs.
  - left. split; [constructor |]. exists s. split; [reflexivity | exact Hs].
  - cbn [parse_options].
    destruct (parse_option_ok o s) as [[Hok (s1 & E & Hk)] | [Hno E]];
      destruct (parse_option o s) as [r e1]; cbn [fst] in E; subst r.
    + destruct (IH s1 (Hk Hs)) as [[Hall (s' & E' & Hs')] | [Hno E']];
        destruct (parse_options tl s1) as [r e2]; cbn [fst] in *.
      * left. split; [constructor; assumption |]. exists s'. split; assumption.
      * right. split; [| exact E'].
        intros Hall. inversion Hall; subst. contradiction.
    + right. split; [| reflexivity].
      intros Hall. inversion Hall; subst. contradiction.
Qed.

(** The option loop only writes to the log and to [stderr]. *)
Lemma parse_events_quiet (opts : list cli_option) (s : settings) :
  Forall (fun e => exists m, e = MSyslog m \/ e = MStderr m)
         (snd (parse_options opts s)).
Proof.
  revert s. induction opts as [| o tl IH]; intros s; [constructor |].
  cbn [parse_options].
  assert (Ho : Forall (fun e => exists m, e = MSyslog m \/ e = MStderr m)
                      (snd (parse_option o s))).
  { destruct o as [x | v | v | v | c]; cbn [parse_option].
    - repeat constructor. eexists. left. reflexivity.
    - destruct ((v <=? 0) || (v >? 1000)); cbn [snd];
        repeat constructor; eexists; left; reflexivity.
    - repeat constructor. eexists. left. reflexivity.
    - destruct (v <=? 0); repeat constructor; eexists; left; reflexivity.
    - repeat constructor. eexists. right. reflexivity. }
  destruct (parse_option o s) as [[s1 | c |] e1]; cbn [snd] in *; try exact Ho.
  specialize (IH s1). destruct (parse_options tl s1) as [r e2]. cbn [snd] in *.
  apply Forall_app. split; assumption.
Qed.

Lemma quiet_driver_events (evs : list main_event) :
  Forall (fun e => exists m, e = MSyslog m \/ e = MStderr m) evs ->
  driver_events evs = [].
Proof.
  induction 1 as [| e tl (m & [-> | ->]) _ IH]; [reflexivity | exact IH | exact IH].
Qed.

Lemma init_exit_code (P : platform) (d : dev P) :
  (outcome (ldc1101_init P d) = Done 0 /\
   spi_frames (events (ldc1101_init P d)) = init_frames)
  \/ outcome (ldc1101_init P d) = Exited EXIT_FAILURE.
Proof.
  init_paths; try (right; reflexivity).
  left. split; reflexivity.
Qed.

(** X19: with an option the loop refuses, [main] exits with
    [EXIT_FAILURE] having only read the clock and written to the log: no
    socket is opened, no command is sent and the bus is not touched. *)
Theorem refused_options_touch_nothing (H : host) (fuel : nat)
    (opts : list cli_option) (d : dev (h_platform H)) :
  ~ Forall option_ok opts ->
  m_outcome (main H fuel opts d) = Exited EXIT_FAILURE /\
  driver_events (m_events (main H fuel opts d))
  = [EvClock (snd (p_clock (h_platform H) d))] /\
  (forall ip port fd, ~ In (MUdpInit ip port fd) (m_events (main H fuel opts d))).
Proof.
  intros Hno. rewrite main_cases. cbv zeta.
  destruct (parse_options_cases opts default_settings default_settings_ok)
    as [[Hall _] | [_ E]]; [contradiction |].
  pose proof (parse_events_quiet opts default_settings) as Hq.
  rewrite E. cbn [m_outcome m_events fst snd].
  split; [reflexivity | split].
  - cbn [driver_events]. rewrite (quiet_driver_events _ Hq). reflexivity.
  - intros ip port fd Hin. cbn [In] in Hin.
    destruct Hin as [Hin | [Hin | [Hin | Hin]]]; try discriminate Hin.
    rewrite Forall_forall in Hq. destruct (Hq _ Hin) as (m & [E' | E']);
      discriminate E'.
Qed.

Lemma refused_options_touch_nothing_witness :
  m_outcome (main (scripted_host 4 5) 1 [Opt_n 1001] (script_ok 0xD4 1 2 3))
  = Exited EXIT_FAILURE.
Proof.
  apply (refused_options_touch_nothing (scripted_host 4 5) 1 [Opt_n 1001]
           (script_ok 0xD4 1 2 3)).
  intros Hall. inversion Hall as [| ? ? Hn _]; subst. cbn in Hn. lia.
Defined.

(** X20: when [UDP_init] returns a negative descriptor, [main] logs it and
    exits with [EXIT_FAILURE] before the first command and before any use
    of the SPI bus. *)
Theorem udp_failure_exits_early (H : host) (fuel : nat)
    (opts : list cli_option) (d : dev (h_platform H)) :
  Forall option_ok opts ->
  snd (h_udp_init H (fst (p_clock (h_platform H) d)) Literals.ip Literals.port) < 0 ->
  m_outcome (main H fuel opts d) = Exited EXIT_FAILURE /\
  driver_events (m_events (main H fuel opts d))
  = [EvClock (snd (p_clock (h_platform H) d))] /\
  exists pre fd,
    m_events (main H fuel opts d)
    = pre ++ [MUdpInit Literals.ip Literals.port fd; MSyslog MsgNoSocket].
Proof.
  intros Hall Hfd. rewrite main_cases. cbv zeta.
  destruct (parse_options_cases opts default_settings default_settings_ok)
    as [[_ (s & E & _)] | [Hno _]]; [| contradiction].
  pose proof (parse_events_quiet opts default_settings) as Hq.
  rewrite E.
  rewrite (proj2 (Z.ltb_lt _ 0) Hfd). cbn [m_outcome m_events fst snd].
  split; [reflexivity | split].
  - cbn [driver_events app]. rewrite driver_events_app.
    rewrite (quiet_driver_events _ Hq). reflexivity.
  - eexists. eexists. reflexivity.
Qed.

Lemma udp_failure_exits_early_witness :
  m_outcome (main (scripted_host (-1) 5) 1 [] (script_ok 0xD4 1 2 3))
  = Exited EXIT_FAILURE.
Proof.
  apply (udp_failure_exits_early (scripted_host (-1) 5) 1 [] (script_ok 0xD4 1 2 3)).
  - constructor.
  - cbn. lia.
Defined.

(** X21: the result of the first [send_command] is not looked at: whatever
    it returns, -1 included, [main] sleeps 100 ms, sets up wiringPi and
    goes on to set up the SPI bus. *)
Theorem first_command_result_ignored (H : host) (fuel : nat)
    (opts : list cli_option) (d : dev (h_platform H)) :
  Forall option_ok opts ->
  0 <= snd (h_udp_init H (fst (p_clock (h_platform H) d)) Literals.ip Literals.port) ->
  exists pre fd post,
    m_events (main H fuel opts d)
    = pre
      ++ Drv (EvCommand start_value
                (snd (p_send (h_platform H)
                        (fst (h_udp_init H (fst (p_clock (h_platform H) d))
                                Literals.ip Literals.port))
                        start_value)))
         :: MUsleep 100000 :: MWiringPiSetup
         :: Drv (EvSpiSetup spi_num spi_chan SPI_SPEED SPI_MODE_3 fd) :: post.
Proof.
  intros Hall Hfd. rewrite main_cases. cbv zeta.
  destruct (parse_options_cases opts default_settings default_settings_ok)
    as [[_ (s & E & _)] | [Hno _]]; [| contradiction].
  rewrite E.
  rewrite (proj2 (Z.ltb_ge _ 0) Hfd). cbn [m_outcome m_events fst snd].
  rewrite main_bringup_cases. cbv zeta.
  set (u := h_udp_init H (fst (p_clock (h_platform H) d)) Literals.ip Literals.port).
  set (c := p_send (h_platform H) (fst u) start_value).
  set (su := p_setup (h_platform H) (fst c) spi_num spi_chan SPI_SPEED SPI_MODE_3).
  exists (Drv (EvClock (snd (p_clock (h_platform H) d))) :: MOpenlog
          :: MSyslog MsgStarting :: snd (parse_options opts default_settings)
          ++ [MUdpInit Literals.ip Literals.port (snd u); MSyslog MsgUdpInitialized]).
  exists (snd su).
  destruct (snd su =? -1).
  - eexists. cbn [m_events snd app]. rewrite <- !app_assoc. cbn [app]. reflexivity.
  - destruct (outcome (ldc1101_init (h_platform H) (fst su)));
      eexists; cbn [m_events snd app]; rewrite <- !app_assoc; cbn [app]; reflexivity.
Qed.

Lemma first_command_result_ignored_witness :
  exists pre fd post,
    m_events (main (scripted_host 4 5) 1 [] (script_ok 0xD4 1 2 3))
    = pre
      ++ Drv (EvCommand start_value 0)
         :: MUsleep 100000 :: MWiringPiSetup
         :: Drv (EvSpiSetup spi_num spi_chan SPI_SPEED SPI_MODE_3 fd) :: post.
Proof.
  apply (first_command_result_ignored (scripted_host 4 5) 1 []
           (script_ok 0xD4 1 2 3)).
  - constructor.
  - cbn. lia.
Defined.

(** Every path through [main], from the options to the loops. *)
Ltac main_paths H fuel opts d :=
  rewrite (main_cases H fuel opts d); cbv zeta;
  let Hq := fresh "Hq" in
  pose proof (parse_events_quiet opts default_settings) as Hq;
  let s := fresh "s" in
  let Es := fresh "Es" in
  let Hs := fresh "Hs" in
  destruct (parse_options_cases opts default_settings default_settings_ok)
    as [[_ (s & Es & Hs)] | [_ Es]]; rewrite Es;
  [ let Hu := fresh "Hu" in
    destruct (Z.ltb_spec
                (snd (h_udp_init H (fst (p_clock (h_platform H) d))
                        Literals.ip Literals.port)) 0) as [Hu | Hu];
    [ | rewrite main_bringup_cases; cbv zeta;
        let Hsu := fresh "Hsu" in
        match goal with
        | |- context [snd ?su =? -1] =>
            destruct (Z.eqb_spec (snd su) (-1)) as [Hsu | Hsu];
            [ | let Hi := fresh "Hi" in
                let Hfr := fresh "Hfr" in
                match goal with
                | |- context [outcome (ldc1101_init ?P ?d2)] =>
                    destruct (init_exit_code P d2) as [[Hi Hfr] | Hi]; rewrite Hi;
                    [ rewrite main_log_cases; cbv zeta;
                      let Ho := fresh "Ho" in
                      match goal with
                      | |- context [snd ?o =? -1] =>
                          destruct (Z.eqb_spec (snd o) (-1)) as [Ho | Ho];
                          [ | let Hh := fresh "Hh" in
                              match goal with
                              | |- context [snd (h_header ?HH ?d3) =? -1] =>
                                  destruct (Z.eqb_spec (snd (h_header HH d3)) (-1))
                                    as [Hh | Hh]
                              end ]
                      end
                    | ]
                end ]
        end ]
  | ];
  cbn [m_outcome m_events fst snd].

(** X22: [main] ends in one of four ways: it returns 0, it returns -1, it
    exits with [EXIT_FAILURE], or it is still polling the sensor. *)
Theorem main_outcomes (H : host) (fuel : nat) (opts : list cli_option)
    (d : dev (h_platform H)) :
  m_outcome (main H fuel opts d) = Done 0 \/
  m_outcome (main H fuel opts d) = Done (-1) \/
  m_outcome (main H fuel opts d) = Exited EXIT_FAILURE \/
  m_outcome (main H fuel opts d) = Spinning.
Proof.
  main_paths H fuel opts d; auto.
  match goal with
  | |- context [main_steps ?P ?f ?t ?n ?i ?k ?c ?d2] =>
      destruct (main_steps_summary P f t n i k c d2) as ([E | [E | E]] & _);
        rewrite E; auto
  end.
Qed.

(** Splitting a membership in the events of [main]. *)
Ltac in_cases Hin Hq :=
  lazymatch type of Hin with
  | In _ (_ :: _) =>
      destruct Hin as [Hin | Hin]; [try discriminate Hin | in_cases Hin Hq]
  | In _ (_ ++ _) =>
      apply in_app_or in Hin; destruct Hin as [Hin | Hin]; in_cases Hin Hq
  | In _ (map Drv _) =>
      try (let x := fresh in
           let E := fresh in
           apply in_map_iff in Hin; destruct Hin as (x & E & _); discriminate E)
  | In _ [] => contradiction Hin
  | In _ (snd (parse_options _ _)) =>
      let m := fresh in
      let E := fresh in
      destruct (proj1 (Forall_forall _ _) Hq _ Hin) as (m & [E | E]);
      discriminate E
  | _ => idtac
  end.

Lemma init_quiet (P : platform) (d : dev P) :
  rows (events (ldc1101_init P d)) = [] /\
  commands (events (ldc1101_init P d)) = [].
Proof. init_paths; split; reflexivity. Qed.

(** X23: when the options are accepted, [UDP_init] gives a descriptor that
    is not negative, the SPI setup and [ldc1101_init] go through, and [open]
    on the log file returns -1 whatever name it is given, [main] returns -1
    after one line on [stderr], with no row written.  By then the sensor has
    been configured and started: the transfers of the run are the seven of a
    complete initialisation. *)
Theorem log_open_failure (H : host) (fuel : nat) (opts : list cli_option)
    (d : dev (h_platform H)) :
  Forall option_ok opts ->
  let u := h_udp_init H (fst (p_clock (h_platform H) d)) Literals.ip Literals.port in
  let c := p_send (h_platform H) (fst u) start_value in
  let su := p_setup (h_platform H) (fst c) spi_num spi_chan SPI_SPEED SPI_MODE_3 in
  let I := ldc1101_init (h_platform H) (fst su) in
  0 <= snd u ->
  snd su <> -1 ->
  outcome I = Done 0 ->
  (forall name, snd (h_open H (final I) name) = -1) ->
  m_outcome (main H fuel opts d) = Done (-1) /\
  (exists pre name name',
     m_events (main H fuel opts d)
     = pre ++ [MOpen name (-1); MStderr (MsgOpenFailed name')]) /\
  spi_frames (driver_events (m_events (main H fuel opts d))) = init_frames /\
  rows (driver_events (m_events (main H fuel opts d))) = [].
Proof.
  intros Hall u c su I Hu Hsu HI Hopen. subst u c su I.
  rewrite main_cases. cbv zeta.
  destruct (parse_options_cases opts default_settings default_settings_ok)
    as [[_ (s & E & _)] | [Hno _]]; [| contradiction].
  pose proof (parse_events_quiet opts default_settings) as Hq.
  rewrite E. rewrite (proj2 (Z.ltb_ge _ 0) Hu).
  rewrite main_bringup_cases. cbv zeta.
  rewrite (proj2 (Z.eqb_neq _ _) Hsu).
  match type of HI with
  | outcome (ldc1101_init ?P ?d2) = _ =>
      destruct (init_exit_code P d2) as [[_ Hfr] | Hx];
      [| rewrite Hx in HI; discriminate HI];
      pose proof (proj1 (init_quiet P d2)) as Hnr
  end.
  rewrite HI. rewrite main_log_cases. cbv zeta.
  rewrite Hopen. change (-1 =? -1) with true. cbv beta iota.
  cbn [m_outcome m_events fst snd].
  split; [reflexivity |]. split; [| split].
  - match goal with
    | |- exists pre name name',
           ?A ++ ?u1 :: ?u2 :: ?B ++ ?i0 :: ?M ++ [?m; MOpen ?n _; MStderr (MsgOpenFailed ?n')]
           = _ =>
        exists (A ++ u1 :: u2 :: B ++ i0 :: M ++ [m]), n, n'
    end.
    rewrite <- !app_assoc. cbn [app]. rewrite <- !app_assoc. cbn [app]. reflexivity.
  - rewrite !driver_events_app. cbn [driver_events app].
    rewrite !driver_events_app, driver_events_map.
    rewrite (quiet_driver_events _ Hq). cbn [driver_events app spi_frames].
    rewrite spi_frames_app, Hfr. cbn [spi_frames]. apply app_nil_r.
  - rewrite !driver_events_app. cbn [driver_events app].
    rewrite !driver_events_app, driver_events_map.
    rewrite (quiet_driver_events _ Hq). cbn [driver_events app rows].
    rewrite rows_app, Hnr. reflexivity.
Qed.

Lemma log_open_failure_witness :
  m_outcome (main (scripted_host 4 (-1)) 1 [] (script_ok 0xD4 1 2 3)) = Done (-1) /\
  (exists pre name name',
     m_events (main (scripted_host 4 (-1)) 1 [] (script_ok 0xD4 1 2 3))
     = pre ++ [MOpen name (-1); MStderr (MsgOpenFailed name')]) /\
  spi_frames (driver_events
                (m_events (main (scripted_host 4 (-1)) 1 [] (script_ok 0xD4 1 2 3))))
  = init_frames /\
  rows (driver_events
          (m_events (main (scripted_host 4 (-1)) 1 [] (script_ok 0xD4 1 2 3))))
  = [].
Proof.
  apply (log_open_failure (scripted_host 4 (-1)) 1 [] (script_ok 0xD4 1 2 3)).
  - constructor.
  - cbn. lia.
  - cbn. lia.
  - reflexivity.
  - intros name. reflexivity.
Defined.

Lemma no_rows_no_row (evs : list event) (el : timespec) (v wr : Z) :
  rows evs = [] -> ~ In (EvRow el v wr) evs.
Proof.
  induction evs as [| e tl IH]; intros Hr Hin; [contradiction |].
  destruct Hin as [-> | Hin]; [discriminate Hr |].
  destruct e; cbn [rows] in Hr; try discriminate Hr; exact (IH Hr Hin).
Qed.

(** X24: a row is only ever written after the header: whenever the log
    holds a row, the header was written before it and that write did not
    return -1, the log file was opened, and nothing before the header is a
    row. *)
Theorem rows_follow_header (H : host) (fuel : nat) (opts : list cli_option)
    (d : dev (h_platform H)) (el : timespec) (v wr : Z) :
  In (Drv (EvRow el v wr)) (m_events (main H fuel opts d)) ->
  exists pre name fd h post,
    m_events (main H fuel opts d)
    = pre ++ MOpen name fd :: MHeader h :: post /\
    fd <> -1 /\ h <> -1 /\
    In (Drv (EvRow el v wr)) post /\
    rows (driver_events pre) = [].
Proof.
  main_paths H fuel opts d; intros Hin; in_cases Hin Hq.
  all: try (apply in_map_iff in Hin; destruct Hin as (e & He & Hin);
            injection He as ->).
  all: try match goal with
           | Hin : In (EvRow _ _ _) (events (ldc1101_init ?P ?d2)) |- _ =>
               exfalso; exact (no_rows_no_row _ _ _ _ (proj1 (init_quiet P d2)) Hin)
           end.
  match goal with
  | |- exists pre name fd h post,
         ?A ++ ?u1 :: ?u2 :: ?B ++ ?i0 :: ?M ++ ?m :: MOpen ?n ?f :: MHeader ?hh :: ?T
         = _ /\ _ =>
      exists (A ++ u1 :: u2 :: B ++ i0 :: M ++ [m]), n, f, hh, T
  end.
  split; [| split; [assumption | split; [assumption | split]]].
  - rewrite <- !app_assoc. cbn [app]. rewrite <- !app_assoc. cbn [app]. reflexivity.
  - apply in_map. exact Hin.
  - rewrite !driver_events_app. cbn [driver_events app].
    rewrite !driver_events_app, driver_events_map.
    rewrite (quiet_driver_events _ Hq). cbn [driver_events app rows].
    rewrite rows_app.
    match goal with
    | |- context [ldc1101_init ?P ?d2] =>
        rewrite (proj1 (init_quiet P d2))
    end.
    reflexivity.
Qed.

Lemma rows_follow_header_witness :
  exists pre name fd h post,
    m_events (main (scripted_host 4 5) 1 [Opt_n 1] (script_ok 0xD4 1 2 3))
    = pre ++ MOpen name fd :: MHeader h :: post /\
    fd <> -1 /\ h <> -1 /\
    In (Drv (EvRow {| tv_sec := 0; tv_nsec := 0 |} 0x030201 12)) post /\
    rows (driver_events pre) = [].
Proof.
  apply (rows_follow_header (scripted_host 4 5) 1 [Opt_n 1] (script_ok 0xD4 1 2 3)).
  vm_compute. do 28 right. left. reflexivity.
Defined.

(** ** send_command inside the loop *)

Lemma main_sample_sent_fine (P : platform) (fuel : nat) (t : timespec) (d : dev P) :
  Forall sent_fine (events (main_sample P fuel t d)).
Proof.
  pose proof (poll_run P fuel d) as [Hall _].
  assert (Hp : Forall sent_fine (events (poll P fuel d))).
  { eapply Forall_impl; [| exact Hall].
    intros e [(r & rx & ->) | ->]; split; intros; discriminate. }
  destruct (main_sample_cases P fuel t d)
    as [[_ E] | [_ (d2 & r & resp & H)]].
  - rewrite E. exact Hp.
  - cbv zeta in H.
    destruct H as [[_ E] | [_ (now & wr & d4 & [[_ E] | [_ E]])]]; rewrite E;
      cbn [events snd]; apply Forall_app; (split; [exact Hp |]);
      repeat constructor; intros; discriminate.
Qed.

Lemma main_samples_sent_fine (P : platform) (fuel : nat) (t : timespec)
    (n : nat) (d : dev P) :
  Forall sent_fine (events (main_samples P fuel t n d)).
Proof.
  revert d. induction n as [| n IH]; intros d; [constructor |].
  rewrite main_samples_step.
  pose proof (main_sample_sent_fine P fuel t d) as Hone.
  destruct (outcome (main_sample P fuel t d)) as [[v |] | s |];
    cbn [events snd]; rewrite ?app_nil_r; try exact Hone.
  apply Forall_app. split; [exact Hone | apply IH].
Qed.

(** X25: with [send_command] as the source has it, a datagram layer that
    answers every send with a negative value never makes the loop stop:
    each [send_command] returns 0, the line "Failed to send command value"
    is never logged, and the sweep goes on as if the commands had left. *)
Theorem negative_send_never_stops_sweep (P : platform) (size_bits : Z)
    (CMD_SIZE : nat) (htons : Z -> Z) (UDP_send : dev P -> list Z -> dev P * Z)
    (fuel : nat) (t : timespec) (num_samples : nat) (cmd_inc : Z)
    (num_steps : nat) (cmd_val : Z) (d : dev P) :
  0 < size_bits ->
  (forall d' buf, - 2 ^ size_bits < snd (UDP_send d' buf) < 0) ->
  Forall sent_fine
    (events (main_steps (with_udp P size_bits CMD_SIZE htons UDP_send)
               fuel t num_samples cmd_inc num_steps cmd_val d)).
Proof.
  intros Hw Hneg.
  assert (Hsend : forall d' c,
             snd (p_send (with_udp P size_bits CMD_SIZE htons UDP_send) d' c) = 0).
  { intros d' c. cbn [p_send with_udp]. unfold send_command_body.
    specialize (Hneg d' (repeat (htons c) (CMD_SIZE / 2))).
    destruct (UDP_send d' (repeat (htons c) (CMD_SIZE / 2))) as [d2 sent].
    cbn [snd] in Hneg.
    assert (E : sent mod 2 ^ size_bits = sent + 2 ^ size_bits).
    { rewrite <- (Z.mod_add sent 1 (2 ^ size_bits)) by lia.
      rewrite Z.mul_1_l. apply Z.mod_small. lia. }
    rewrite E.
    destruct (Z.leb_spec (sent + 2 ^ size_bits) 0); [lia | reflexivity]. }
  revert cmd_val d. induction num_steps as [| steps IH]; intros cmd_val d.
  - cbn. repeat constructor; intros; discriminate.
  - rewrite main_steps_step. cbv zeta.
    pose proof (main_samples_sent_fine
                  (with_udp P size_bits CMD_SIZE htons UDP_send)
                  fuel t num_samples d) as Hb.
    set (batch := main_samples (with_udp P size_bits CMD_SIZE htons UDP_send)
                    fuel t num_samples d) in *.
    set (c := wrap 16 (cmd_val + cmd_inc)).
    destruct (outcome batch) as [[v |] | s |]; cbn [events snd];
      rewrite ?app_nil_r; try exact Hb.
    destruct (Z.abs c >? max_cmd).
    + cbn [events snd]. apply Forall_app. split; [exact Hb |].
      repeat constructor; intros; discriminate.
    + rewrite (Hsend (final batch) c). change (0 =? -1) with false.
      cbn [events snd]. apply Forall_app. split; [exact Hb |].
      constructor; [| apply IH].
      split; [intros; discriminate |].
      intros c' r E. injection E as _ <-. reflexivity.
Qed.

Lemma negative_send_never_stops_sweep_witness :
  Forall sent_fine
    (events (main_steps
               (with_udp scripted 64 8 (fun x => x) (fun d _ => (d, -1)))
               1 t0 1 1000 2 0 [])).
Proof.
  apply (negative_send_never_stops_sweep scripted 64 8 (fun x => x)
           (fun d _ => (d, -1)) 1 t0 1 1000 2 0 []).
  - lia.
  - intros d' buf. cbn. lia.
Defined.
